(** * The Dune query CRUD client ([dune_client/api/query.py])

    A shallow embedding of [QueryAPI] and of the Python values it
    handles: JSON payloads, exceptions, the HTTP round trips it performs
    and the order in which it performs them. *)

From Stdlib Require Import ZArith List String Ascii Bool Lia.
From Stdlib Require Import DecimalString DecimalPos SpecFloat.
Import ListNotations.

Local Open Scope string_scope.
Local Open Scope Z_scope.

(** ** JSON values

    What [response.json()] hands back and what a request body is built
    from.  A Python [dict] keeps its keys in insertion order, so an object
    is an association list; the functions below never create a duplicate
    key. *)
Module Json.

#[warnings="-register-all"]
Inductive json : Type :=
| JNull
| JBool (b : bool)
| JInt (z : Z)
| JFloat (f : spec_float)
| JStr (s : string)
| JList (l : list json)
| JDict (d : list (string * json)).

Definition dict := list (string * json).

(** [d.get(k)]: the value stored under [k], if any. *)
Fixpoint dict_get (d : dict) (k : string) : option json :=
  match d with
  | [] => None
  | (k', v) :: d' => if String.eqb k' k then Some v else dict_get d' k
  end.

(** [d[k] = v]: overwrite in place when [k] is present, append otherwise. *)
Fixpoint dict_set (d : dict) (k : string) (v : json) : dict :=
  match d with
  | [] => [(k, v)]
  | (k', v') :: d' =>
      if String.eqb k' k then (k', v) :: d' else (k', v') :: dict_set d' k v
  end.

(** [bool(d)] for a dict: true exactly when it has an entry. *)
Definition dict_bool (d : dict) : bool :=
  match d with
  | [] => false
  | _ :: _ => true
  end.

End Json.
Export Json.

(** ** Exceptions, results and the builtins the client calls *)
Module Py.

(** The exception classes that can travel through the client.
    [DuneError] is declared in [dune_client/models.py]; its three
    constructor arguments are the ones the client passes.
    [ExternalError] stands for whatever else a collaborator raises (an
    HTTP error of the transport, say). *)
Inductive exn : Type :=
| KeyError (key : string)
| TypeError
| ValueError
| OverflowError
| AttributeError (cls attr : string)
| AssertionError
| DuneError (data : json) (response_class : string) (err : exn)
| ExternalError (name : string).

Inductive result (A : Type) : Type :=
| Ok (a : A)
| Raise (e : exn).
Arguments Ok {A} a.
Arguments Raise {A} e.

Definition is_DuneError (e : exn) : bool :=
  match e with
  | DuneError _ _ _ => true
  | _ => false
  end.

(** [o[k]] with a string key: a lookup on a dict, a [TypeError] on every
    other JSON value (lists want integer indices, the rest is not
    subscriptable). *)
Definition getitem (o : json) (k : string) : result json :=
  match o with
  | JDict d =>
      match dict_get d k with
      | Some v => Ok v
      | None => Raise (KeyError k)
      end
  | _ => Raise TypeError
  end.

(** *** [int(x)] *)

Definition is_space (c : ascii) : bool :=
  let n := N_of_ascii c in
  (N.eqb n 32 || (N.leb 9 n && N.leb n 13))%bool.

Definition digit_of (c : ascii) : option Z :=
  let n := N_of_ascii c in
  if (N.leb 48 n && N.leb n 57)%bool then Some (Z.of_N n - 48) else None.

Fixpoint lstrip (cs : list ascii) : list ascii :=
  match cs with
  | c :: cs' => if is_space c then lstrip cs' else cs
  | [] => []
  end.

Definition strip (cs : list ascii) : list ascii :=
  rev (lstrip (rev (lstrip cs))).

(** Decimal digits, single underscores allowed between two digits. *)
Fixpoint digits_value (acc : Z) (after_digit : bool) (cs : list ascii)
  : option Z :=
  match cs with
  | [] => if after_digit then Some acc else None
  | c :: cs' =>
      match digit_of c with
      | Some d => digits_value (10 * acc + d) true cs'
      | None =>
          if (Ascii.eqb c "_" && after_digit)%bool
          then digits_value acc false cs'
          else None
      end
  end.

(** [int(s)] for an ASCII string in base ten: surrounding white space
    is dropped, one sign is allowed. *)
Definition int_of_str (s : string) : result Z :=
  let parsed :=
    match strip (list_ascii_of_string s) with
    | c :: cs =>
        if Ascii.eqb c "-" then option_map Z.opp (digits_value 0 false cs)
        else if Ascii.eqb c "+" then digits_value 0 false cs
        else digits_value 0 false (c :: cs)
    | [] => None
    end in
  match parsed with
  | Some z => Ok z
  | None => Raise ValueError
  end.

(** [int(f)] truncates towards zero. *)
Definition int_of_float (f : spec_float) : result Z :=
  match f with
  | S754_zero _ => Ok 0
  | S754_infinity _ => Raise OverflowError
  | S754_nan => Raise ValueError
  | S754_finite s m e =>
      let mag := Z.shiftl (Z.pos m) e in
      Ok (if s then - mag else mag)
  end.

Definition py_int (v : json) : result Z :=
  match v with
  | JInt z => Ok z
  | JBool b => Ok (if b then 1 else 0)
  | JFloat f => int_of_float f
  | JStr s => int_of_str s
  | JNull | JList _ | JDict _ => Raise TypeError
  end.

(** [str(n)], as an f-string renders an [int]. *)
Definition py_str (n : Z) : string := NilZero.string_of_int (Z.to_int n).

End Py.
Export Py.

Example py_str_samples :
  py_str 0 = "0" /\ py_str 2713571 = "2713571" /\ py_str (-12) = "-12".
Proof. repeat split; reflexivity. Qed.

Example py_int_samples :
  py_int (JStr " 1_000 ") = Ok 1000 /\
  py_int (JStr "-42") = Ok (-42) /\
  py_int (JStr "abc") = Raise ValueError /\
  py_int (JStr "1__0") = Raise ValueError /\
  py_int (JStr "") = Raise ValueError /\
  py_int (JFloat (S754_finite true 3 (-1))) = Ok (-1) /\
  py_int JNull = Raise TypeError.
Proof. repeat split; reflexivity. Qed.

(** ** The client's effects

    A call of the client runs against a server, whose state it cannot
    see, and leaves two traces: the HTTP requests it sent, in order, and
    the records it wrote to its logger.  A computation takes the world
    before the call to its outcome, a value or a raised exception, and
    the world after it. *)
Module Effects.

Inductive http_method : Type := GET | POST | PATCH.

Record request : Type := mk_request {
  req_method : http_method;
  req_route : string;
  req_body : option json
}.

Inductive log_level : Type := WARNING.

Record world (ServerState : Type) : Type := mk_world {
  server : ServerState;
  trace : list request;
  logs : list (log_level * string)
}.
Arguments mk_world {ServerState} _ _ _.
Arguments server {ServerState} _.
Arguments trace {ServerState} _.
Arguments logs {ServerState} _.

Definition M (S A : Type) : Type := world S -> result A * world S.

Definition ret {S A} (a : A) : M S A := fun w => (Ok a, w).

Definition raise {S A} (e : exn) : M S A := fun w => (Raise e, w).

Definition bind {S A B} (m : M S A) (k : A -> M S B) : M S B :=
  fun w =>
    match m w with
    | (Ok a, w') => k a w'
    | (Raise e, w') => (Raise e, w')
    end.

(** A step that has no effect but may raise. *)
Definition lift {S A} (r : result A) : M S A := fun w => (r, w).

(** [try: body / except KeyError as err: handler(err)]: every other
    exception, and every value, passes through. *)
Definition try_except_KeyError {S A} (body : M S A) (handler : exn -> M S A)
  : M S A :=
  fun w =>
    match body w with
    | (Raise (KeyError k), w') => handler (KeyError k) w'
    | other => other
    end.

(** [assert c], with assertions enabled (the interpreter's default). *)
Definition py_assert {S} (c : bool) : M S unit :=
  if c then ret tt else raise AssertionError.

(** [self.logger.warning(msg)]. *)
Definition logger_warning {S} (msg : string) : M S unit :=
  fun w =>
    (Ok tt, mk_world (server w) (trace w) (logs w ++ [(WARNING, msg)])).

End Effects.
Export Effects.

Declare Scope py_scope.
Delimit Scope py_scope with py.
Notation "x <- m ;; k" := (bind m (fun x => k))
  (at level 100, m at next level, right associativity) : py_scope.
Notation "m ;;; k" := (bind m (fun _ => k))
  (at level 100, right associativity) : py_scope.

(** ** A reference server

    An in-memory stand-in for the service and for the collaborators of
    the client, on which the client is run on concrete inputs. *)
Module Fixture.

(** The two flags the service keeps per query; every id names one. *)
Record flags : Type := mk_flags {
  f_private : bool;
  f_archived : bool
}.

Definition state : Type := Z -> flags.

Definition fresh : state := fun _ => mk_flags false false.

Definition set_archived (i : Z) (b : bool) (s : state) : state :=
  fun j => if Z.eqb j i then mk_flags (f_private (s j)) b else s j.

Definition set_private (i : Z) (b : bool) (s : state) : state :=
  fun j => if Z.eqb j i then mk_flags b (f_archived (s j)) else s j.

Fixpoint drop_prefix (p cs : list ascii) : option (list ascii) :=
  match p, cs with
  | [], _ => Some cs
  | a :: p', c :: cs' => if Ascii.eqb a c then drop_prefix p' cs' else None
  | _ :: _, [] => None
  end.

(** Splits at the first slash, which stays with the second half. *)
Fixpoint split_slash (cs : list ascii) : list ascii * list ascii :=
  match cs with
  | [] => ([], [])
  | c :: cs' =>
      if Ascii.eqb c "/" then ([], cs)
      else let (a, b) := split_slash cs' in (c :: a, b)
  end.

(** ["/query/{id}{action}"] to the id and the action. *)
Definition parse_route (route : string) : option (Z * string) :=
  match drop_prefix (list_ascii_of_string "/query/")
                    (list_ascii_of_string route) with
  | Some rest =>
      let (ds, action) := split_slash rest in
      match int_of_str (string_of_list_ascii ds) with
      | Ok i => Some (i, string_of_list_ascii action)
      | Raise _ => None
      end
  | None => None
  end.

Definition id_json (i : Z) : json := JDict [("query_id", JInt i)].

Definition query_json (i : Z) (f : flags) : json :=
  JDict [("query_id", JInt i);
         ("is_private", JBool (f_private f));
         ("is_archived", JBool (f_archived f))].

Definition not_found : json := JDict [("error", JStr "Query not found")].

(** The service.  An action answers with the id [echo i], so that
    [echo := fun i => i] is the service as documented and any other
    [echo] one that names a different query in its answer.  A created
    query gets the id [created]. *)
Definition transport (echo : Z -> Z) (created : Z) (req : request)
    (s : state) : result json * state :=
  if String.eqb (req_route req) "/query/" then
    match req_method req with
    | POST => (Ok (id_json created), s)
    | _ => (Ok not_found, s)
    end
  else
    match parse_route (req_route req) with
    | Some (i, action) =>
        match req_method req with
        | GET =>
            if String.eqb action "" then (Ok (query_json i (s i)), s)
            else (Ok not_found, s)
        | PATCH =>
            if String.eqb action "" then (Ok (id_json (echo i)), s)
            else (Ok not_found, s)
        | POST =>
            if String.eqb action "/archive"
            then (Ok (id_json (echo i)), set_archived i true s)
            else if String.eqb action "/unarchive"
            then (Ok (id_json (echo i)), set_archived i false s)
            else if String.eqb action "/private"
            then (Ok (id_json (echo i)), set_private i true s)
            else if String.eqb action "/unprivate"
            then (Ok (id_json (echo i)), set_private i false s)
            else (Ok not_found, s)
        end
    | None => (Ok not_found, s)
    end.

(** A service that gives the same answer to every request. *)
Definition answer (r : json) (req : request) (s : state)
  : result json * state :=
  (Ok r, s).

(** A query object as the client sees it. *)
Record query : Type := mk_query {
  q_id : Z;
  q_private : bool;
  q_archived : bool
}.

Definition from_dict (payload : json) : result query :=
  match getitem payload "query_id" with
  | Ok v =>
      match py_int v with
      | Ok i =>
          match getitem payload "is_private" with
          | Ok (JBool p) =>
              match getitem payload "is_archived" with
              | Ok (JBool a) => Ok (mk_query i p a)
              | Ok _ => Raise TypeError
              | Raise e => Raise e
              end
          | Ok _ => Raise TypeError
          | Raise e => Raise e
          end
      | Raise e => Raise e
      end
  | Raise e => Raise e
  end.

(** A text parameter: its name and its value. *)
Definition parameter : Type := (string * string)%type.

Definition to_dict (p : parameter) : result json :=
  Ok (JDict [("key", JStr (fst p)); ("type", JStr "text");
             ("value", JStr (snd p))]).

Definition world0 : world state := mk_world fresh [] [].

End Fixture.

(** ** Servers and collaborators off the documented path

    Stand-ins on which the other paths of the client are run. *)
Module Faulty.

(** A transport that raises [e] on every request. *)
Definition failing (e : exn) (req : request) (s : Fixture.state)
  : result json * Fixture.state :=
  (Raise e, s).

(** A service that acknowledges every POST with the id [i] and has
    forgotten every query when it is read. *)
Definition forgetful (i : Z) (req : request) (s : Fixture.state)
  : result json * Fixture.state :=
  match req_method req with
  | POST => (Ok (Fixture.id_json i), s)
  | _ => (Ok Fixture.not_found, s)
  end.

(** A service that names the query 8 in every acknowledgement, as a
    string, and reports the flags of 8 for every read. *)
Definition string_ids (req : request) (s : Fixture.state)
  : result json * Fixture.state :=
  match req_method req with
  | POST => (Ok (JDict [("query_id", JStr "8")]), s)
  | _ => (Ok (Fixture.query_json 8 (s 8)), s)
  end.

(** A serializer that refuses a parameter without a name. *)
Definition to_dict (p : Fixture.parameter) : result json :=
  if String.eqb (fst p) "" then Raise TypeError else Fixture.to_dict p.

End Faulty.

Local Open Scope py_scope.

(** ** [QueryAPI]

    The class reaches four collaborators that live in other files of the
    package.  They are the parameters of this section:
    - [QueryParameter] with its [to_dict] method ([dune_client/types.py]);
    - [DuneQuery] with [DuneQuery.from_dict] and the two attributes the
      client reads, [.meta.is_archived] and [.meta.is_private]
      ([dune_client/query.py]);
    - the server behind [BaseRouter]: [transport] answers one request in
      one server state with a parsed JSON body or an exception, and gives
      the server state after it. *)
Section QueryAPI.

Context {QueryParameter DuneQuery ServerState : Type}.

Variable to_dict : QueryParameter -> result json.

Variable from_dict : json -> result DuneQuery.
Variable meta_is_archived : DuneQuery -> bool.
Variable meta_is_private : DuneQuery -> bool.

Variable transport : request -> ServerState -> result json * ServerState.

(** One HTTP round trip: the request joins the trace whether or not the
    transport raises. *)
Definition send (req : request) : M ServerState json :=
  fun w =>
    let (r, s') := transport req (server w) in
    (r, mk_world s' (trace w ++ [req]) (logs w)).

(** Modelled from the spec: [BaseRouter._get], [._post] and [._patch]
    ([dune_client/api/base.py] is not among the sources).  Each "sends
    the request with the configured API key, parses the JSON body": one
    request per call, with the route and the optional payload given. *)
Definition _get (route : string) : M ServerState json :=
  send (mk_request GET route None).

Definition _post (route : string) (params : option json)
  : M ServerState json :=
  send (mk_request POST route params).

Definition _patch (route : string) (params : json) : M ServerState json :=
  send (mk_request PATCH route (Some params)).

(** [[p.to_dict() for p in ps]]: left to right, stopping at the first
    element that raises. *)
Fixpoint to_dicts (ps : list QueryParameter) : result (list json) :=
  match ps with
  | [] => Ok []
  | p :: ps' =>
      match to_dict p with
      | Ok j =>
          match to_dicts ps' with
          | Ok js => Ok (j :: js)
          | Raise e => Raise e
          end
      | Raise e => Raise e
      end
  end.

(** [class UpdateQueryParams(NamedTuple)]: five optional fields, each
    [None] by default. *)
Record UpdateQueryParams : Type := mk_UpdateQueryParams {
  name : option string;
  query_sql : option string;
  params : option (list QueryParameter);
  description : option string;
  tags : option (list string)
}.

(** [UpdateQueryParams()] *)
Definition UpdateQueryParams_default : UpdateQueryParams :=
  mk_UpdateQueryParams None None None None None.

Definition UpdateQueryParams_fields : list string :=
  ["name"; "query_sql"; "params"; "description"; "tags"].

(** [params.query_parms].  The tuple declares no field of that name
    (the parameter list is stored under [params]), so the attribute
    lookup raises on every instance. *)
Definition query_parms (p : UpdateQueryParams)
  : result (option (list QueryParameter)) :=
  Raise (AttributeError "UpdateQueryParams" "query_parms").

(** [f"/query/{query_id}"] and the action routes under it. *)
Definition query_route (query_id : Z) : string :=
  "/query/" ++ py_str query_id.

Definition get_query (query_id : Z) : M ServerState DuneQuery :=
  response_json <- _get (query_route query_id) ;;
  lift (from_dict response_json).

Definition create_query (name query_sql : string)
    (params : option (list QueryParameter)) (is_private : bool)
  : M ServerState DuneQuery :=
  let payload : dict :=
    [("name", JStr name); ("query_sql", JStr query_sql);
     ("is_private", JBool is_private)] in
  payload <-
    match params with
    | Some ps =>
        js <- lift (to_dicts ps) ;;
        ret (dict_set payload "parameters" (JList js))
    | None => ret payload
    end ;;
  response_json <- _post "/query/" (Some (JDict payload)) ;;
  try_except_KeyError
    (v <- lift (getitem response_json "query_id") ;;
     query_id <- lift (py_int v) ;;
     get_query query_id)
    (fun err => raise (DuneError response_json "CreateQueryResponse" err)).

Definition update_query (query_id : Z) (params : option UpdateQueryParams)
  : M ServerState Z :=
  let params :=
    match params with
    | None => UpdateQueryParams_default
    | Some p => p
    end in
  let parameters : dict := [] in
  let parameters :=
    match params.(name) with
    | Some s => dict_set parameters "name" (JStr s)
    | None => parameters
    end in
  let parameters :=
    match params.(description) with
    | Some s => dict_set parameters "description" (JStr s)
    | None => parameters
    end in
  let parameters :=
    match params.(tags) with
    | Some ts => dict_set parameters "tags" (JList (map JStr ts))
    | None => parameters
    end in
  let parameters :=
    match params.(query_sql) with
    | Some s => dict_set parameters "query_sql" (JStr s)
    | None => parameters
    end in
  qp <- lift (query_parms params) ;;
  parameters <-
    match qp with
    | Some ps =>
        js <- lift (to_dicts ps) ;;
        ret (dict_set parameters "parameters" (JList js))
    | None => ret parameters
    end ;;
  if negb (dict_bool parameters) then
    logger_warning "called update_query with no proposed changes." ;;;
    ret query_id
  else
    response_json <- _patch (query_route query_id) (JDict parameters) ;;
    try_except_KeyError
      (v <- lift (getitem response_json "query_id") ;;
       lift (py_int v))
      (fun err => raise (DuneError response_json "UpdateQueryResponse" err)).

Definition archive_query (query_id : Z) : M ServerState bool :=
  response_json <- _post (query_route query_id ++ "/archive") None ;;
  try_except_KeyError
    (v <- lift (getitem response_json "query_id") ;;
     qid <- lift (py_int v) ;;
     q <- get_query qid ;;
     ret (meta_is_archived q))
    (fun err => raise (DuneError response_json "ArchiveQueryResponse" err)).

Definition unarchive_query (query_id : Z) : M ServerState bool :=
  response_json <- _post (query_route query_id ++ "/unarchive") None ;;
  try_except_KeyError
    (v <- lift (getitem response_json "query_id") ;;
     qid <- lift (py_int v) ;;
     q <- get_query qid ;;
     ret (meta_is_archived q))
    (fun err => raise (DuneError response_json "UnarchiveQueryResponse" err)).

Definition make_private (query_id : Z) : M ServerState unit :=
  response_json <- _post (query_route query_id ++ "/private") None ;;
  try_except_KeyError
    (v <- lift (getitem response_json "query_id") ;;
     qid <- lift (py_int v) ;;
     q <- get_query qid ;;
     py_assert (meta_is_private q))
    (fun err => raise (DuneError response_json "MakePrivateResponse" err)).

Definition make_public (query_id : Z) : M ServerState unit :=
  response_json <- _post (query_route query_id ++ "/unprivate") None ;;
  try_except_KeyError
    (v <- lift (getitem response_json "query_id") ;;
     qid <- lift (py_int v) ;;
     q <- get_query qid ;;
     py_assert (negb (meta_is_private q)))
    (fun err => raise (DuneError response_json "MakePublicResponse" err)).

(** *** Vocabulary of the statements *)

Definition post_request (route : string) (body : option json) : request :=
  mk_request POST route body.

Definition get_request (query_id : Z) : request :=
  mk_request GET (query_route query_id) None.

(** The request of a state-transition action on the query [query_id]. *)
Definition action_request (query_id : Z) (action : string) : request :=
  post_request (query_route query_id ++ action) None.

Definition creation_request (payload : json) : request :=
  post_request "/query/" (Some payload).

(** In server state [s] the request [action] is answered by [r], which
    carries the id [qid] under ["query_id"]; [s1] is the state after. *)
Definition answers (s : ServerState) (action : request) (r : json)
    (qid : Z) (s1 : ServerState) : Prop :=
  transport action s = (Ok r, s1) /\
  exists v, getitem r "query_id" = Ok v /\ py_int v = Ok qid.

(** In server state [s] the request [action] is answered by [r], which
    has no ["query_id"] key. *)
Definition answers_without_id (s : ServerState) (action : request) (r : json)
    (s1 : ServerState) : Prop :=
  transport action s = (Ok r, s1) /\
  getitem r "query_id" = Raise (KeyError "query_id").

(** In server state [s] the request [action] is answered by [r], whose
    ["query_id"] is a value on which [int] raises [e]. *)
Definition answers_with_bad_id (s : ServerState) (action : request)
    (r : json) (e : exn) (s1 : ServerState) : Prop :=
  transport action s = (Ok r, s1) /\
  exists v, getitem r "query_id" = Ok v /\ py_int v = Raise e.

(** In server state [s1] a read of [qid] yields the query object [q]. *)
Definition reads (s1 : ServerState) (qid : Z) (q : DuneQuery)
    (s2 : ServerState) : Prop :=
  exists g, transport (get_request qid) s1 = (Ok g, s2) /\ from_dict g = Ok q.

(** The world after the requests [reqs] were sent from [w], the server
    being left in [s]. *)
Definition after (w : world ServerState) (reqs : list request)
    (s : ServerState) : world ServerState :=
  mk_world s (trace w ++ reqs) (logs w).

(** The call [call], started in [w] with its action answered by the id
    [qid], re-fetches [qid]: its second and last request is the read of
    [qid], and when that read yields [q] its outcome is [outcome q]. *)
Definition refetches {A} (call : M ServerState A) (w : world ServerState)
    (action : request) (qid : Z) (s1 : ServerState)
    (outcome : DuneQuery -> result A) : Prop :=
  trace (snd (call w)) = (trace w ++ [action; get_request qid])%list /\
  forall q s2,
    reads s1 qid q s2 ->
    call w = (outcome q, after w [action; get_request qid] s2).

(** The shape the four state-transition actions share: post to [route]
    without a body, read the id out of the answer, fetch that query and
    hand it to [k]; a [KeyError] on the way becomes a [DuneError] named
    [cls]. *)
Definition action_refetch {A} (route cls : string)
    (k : DuneQuery -> M ServerState A) : M ServerState A :=
  response_json <- _post route None ;;
  try_except_KeyError
    (v <- lift (getitem response_json "query_id") ;;
     qid <- lift (py_int v) ;;
     q <- get_query qid ;;
     k q)
    (fun err => raise (DuneError response_json cls err)).

(** What the spec says a creation request carries: name, SQL text and
    privacy flag, and the parameters when a list was given. *)
Definition creation_payload (name query_sql : string) (is_private : bool)
    (parameters : option (list json)) : json :=
  JDict ([("name", JStr name); ("query_sql", JStr query_sql);
          ("is_private", JBool is_private)]
         ++ match parameters with
            | Some js => [("parameters", JList js)]
            | None => []
            end).

(** The optional parameter list, serialized. *)
Definition serialized (params : option (list QueryParameter))
  : result (option (list json)) :=
  match params with
  | Some ps =>
      match to_dicts ps with
      | Ok js => Ok (Some js)
      | Raise e => Raise e
      end
  | None => Ok None
  end.

(** The server honours the archive routes for the query [i]: the two
    actions answer with the id and set, resp. clear, the flag that
    [archived] observes, and a read reports that flag. *)
Definition honours_archive_routes (archived : ServerState -> Z -> bool)
    (i : Z) : Prop :=
  (forall s, exists r s1,
      answers s (action_request i "/archive") r i s1 /\
      archived s1 i = true) /\
  (forall s, exists r s1,
      answers s (action_request i "/unarchive") r i s1 /\
      archived s1 i = false) /\
  (forall s, exists q s2,
      reads s i q s2 /\ meta_is_archived q = archived s i).

(** The characters of a decimal numeral, most significant digit
    first. *)
Definition digits (d : Decimal.uint) : list ascii :=
  list_ascii_of_string (NilEmpty.string_of_uint d).

(** The same shape with a request body, as [create_query] has it. *)
Definition post_refetch {A} (route : string) (body : option json)
    (cls : string) (k : DuneQuery -> M ServerState A) : M ServerState A :=
  response_json <- _post route body ;;
  try_except_KeyError
    (v <- lift (getitem response_json "query_id") ;;
     qid <- lift (py_int v) ;;
     q <- get_query qid ;;
     k q)
    (fun err => raise (DuneError response_json cls err)).

(** In server state [s1] the read of [qid] fails with [e]: the transport
    raises it, or [from_dict] raises it on the answer. *)
Definition read_fails (s1 : ServerState) (qid : Z) (e : exn)
    (s2 : ServerState) : Prop :=
  transport (get_request qid) s1 = (Raise e, s2) \/
  exists g, transport (get_request qid) s1 = (Ok g, s2) /\
            from_dict g = Raise e.

(** What leaves a [try] whose handler names the response [cls], when
    [e] was raised under it with [response_json] in hand. *)
Definition handled (response_json : json) (cls : string) (e : exn) : exn :=
  match e with
  | KeyError k => DuneError response_json cls (KeyError k)
  | _ => e
  end.

(** Started in [w], the call issues the requests [reqs], in this
    order, and no other. *)
Definition issues {A} (call : M ServerState A) (w : world ServerState)
    (reqs : list request) : Prop :=
  trace (snd (call w)) = (trace w ++ reqs)%list.

(** The server honours the privacy routes for the query [i]: the two
    actions answer with the id and set, resp. clear, the flag that
    [private] observes; a read reports that flag and leaves it. *)
Definition honours_privacy_routes (private : ServerState -> Z -> bool)
    (i : Z) : Prop :=
  (forall s, exists r s1,
      answers s (action_request i "/private") r i s1 /\
      private s1 i = true) /\
  (forall s, exists r s1,
      answers s (action_request i "/unprivate") r i s1 /\
      private s1 i = false) /\
  (forall s, exists q s2,
      reads s i q s2 /\ meta_is_private q = private s i /\
      private s2 i = private s i).

(** *** Symbolic execution *)

Lemma archive_query_shape (i : Z) :
  archive_query i =
  action_refetch (query_route i ++ "/archive") "ArchiveQueryResponse"
                 (fun q => ret (meta_is_archived q)).
Proof. reflexivity. Qed.

Lemma unarchive_query_shape (i : Z) :
  unarchive_query i =
  action_refetch (query_route i ++ "/unarchive") "UnarchiveQueryResponse"
                 (fun q => ret (meta_is_archived q)).
Proof. reflexivity. Qed.

Lemma make_private_shape (i : Z) :
  make_private i =
  action_refetch (query_route i ++ "/private") "MakePrivateResponse"
                 (fun q => py_assert (meta_is_private q)).
Proof. reflexivity. Qed.

Lemma make_public_shape (i : Z) :
  make_public i =
  action_refetch (query_route i ++ "/unprivate") "MakePublicResponse"
                 (fun q => py_assert (negb (meta_is_private q))).
Proof. reflexivity. Qed.

Lemma py_assert_lift (c : bool) :
  @py_assert ServerState c = lift (if c then Ok tt else Raise AssertionError).
Proof. destruct c; reflexivity. Qed.

Lemma get_query_reads (w : world ServerState) qid q s2 :
  reads (server w) qid q s2 ->
  get_query qid w = (Ok q, after w [get_request qid] s2).
Proof.
  intros [g [Hget Hq]].
  unfold get_query, bind, _get, send, get_request in *.
  rewrite Hget. unfold lift. rewrite Hq. reflexivity.
Qed.

(** Once the action is answered with [qid], what is left of the call is
    a fetch of [qid] under the handler. *)
Lemma action_refetch_answered {A} route cls (k : DuneQuery -> M ServerState A)
    (w : world ServerState) r qid s1 :
  answers (server w) (post_request route None) r qid s1 ->
  action_refetch route cls k w =
  try_except_KeyError (q <- get_query qid ;; k q)
    (fun err => raise (DuneError r cls err))
    (after w [post_request route None] s1).
Proof.
  intros [Hpost [v [Hv Hid]]].
  unfold post_request in Hpost.
  unfold action_refetch, bind, _post, send, post_request.
  rewrite Hpost.
  unfold try_except_KeyError, lift, after.
  rewrite Hv, Hid. reflexivity.
Qed.

Lemma action_refetch_ok {A} route cls (k : DuneQuery -> M ServerState A)
    (w : world ServerState) r qid s1 q s2 (res : result A) :
  answers (server w) (post_request route None) r qid s1 ->
  reads s1 qid q s2 ->
  k q = lift res ->
  (forall key, res <> Raise (KeyError key)) ->
  action_refetch route cls k w =
  (res, after w [post_request route None; get_request qid] s2).
Proof.
  intros Hans Hread Hk Hres.
  rewrite (action_refetch_answered _ _ _ _ _ _ _ Hans).
  unfold try_except_KeyError, bind.
  rewrite (get_query_reads (after w _ s1) qid q s2 Hread), Hk.
  unfold lift, after; cbn [server trace logs].
  rewrite <- app_assoc; cbn [app].
  destruct res as [a | e]; [reflexivity |].
  destruct e; try reflexivity.
  exfalso; eapply Hres; reflexivity.
Qed.

(** A read sends one [GET], whatever comes of it. *)
Lemma get_query_world (w : world ServerState) qid :
  exists res s2, get_query qid w = (res, after w [get_request qid] s2).
Proof.
  unfold get_query, _get, send, bind, lift, after. fold (get_request qid).
  destruct (transport (get_request qid) (server w)) as [[g | e] s2].
  - exists (from_dict g), s2. reflexivity.
  - exists (Raise e), s2. reflexivity.
Qed.

(** Whatever the answer to the read is, the call has sent the action and
    then a [GET] for the id the answer named. *)
Lemma action_refetch_trace {A} route cls (k : DuneQuery -> M ServerState A)
    (w : world ServerState) r qid s1 :
  answers (server w) (post_request route None) r qid s1 ->
  (forall q, exists res, k q = lift res) ->
  trace (snd (action_refetch route cls k w)) =
  (trace w ++ [post_request route None; get_request qid])%list.
Proof.
  intros Hans Hk.
  rewrite (action_refetch_answered _ _ _ _ _ _ _ Hans).
  unfold try_except_KeyError, bind.
  destruct (get_query_world (after w [post_request route None] s1) qid)
    as [res [s2 E]].
  rewrite E. unfold after; cbn [server trace logs].
  rewrite <- app_assoc; cbn [app].
  destruct res as [q | e].
  - destruct (Hk q) as [res Hres]. rewrite Hres. unfold lift.
    destruct res as [a | e]; [reflexivity | destruct e; reflexivity].
  - destruct e; reflexivity.
Qed.

(** An action whose answer has no ["query_id"] raises the [DuneError]
    named [cls], after that one request. *)
Lemma action_refetch_missing_key {A} route cls
    (k : DuneQuery -> M ServerState A) (w : world ServerState) r s1 :
  transport (post_request route None) (server w) = (Ok r, s1) ->
  getitem r "query_id" = Raise (KeyError "query_id") ->
  action_refetch route cls k w =
  (Raise (DuneError r cls (KeyError "query_id")),
   after w [post_request route None] s1).
Proof.
  intros Hpost Hkey. unfold post_request in Hpost.
  unfold action_refetch, bind, _post, send, post_request.
  rewrite Hpost.
  unfold try_except_KeyError, lift. rewrite Hkey. reflexivity.
Qed.

(** [int] raises neither a [KeyError] nor a [DuneError]. *)
Lemma py_int_raises (v : json) (e : exn) :
  py_int v = Raise e -> e = TypeError \/ e = ValueError \/ e = OverflowError.
Proof.
  destruct v as [ | b | z | f | str | l | d]; cbn; intros H;
    try discriminate; try (injection H as <-; auto).
  - destruct f; cbn in H; try discriminate; injection H as <-; auto.
  - unfold int_of_str in H.
    destruct (match strip (list_ascii_of_string str) with
              | [] => None
              | c :: cs => _
              end); [discriminate | injection H as <-; auto].
Qed.

(** An action whose answer carries an id that [int] refuses raises what
    [int] raised, after that one request. *)
Lemma action_refetch_bad_id {A} route cls
    (k : DuneQuery -> M ServerState A) (w : world ServerState) r v e s1 :
  transport (post_request route None) (server w) = (Ok r, s1) ->
  getitem r "query_id" = Ok v ->
  py_int v = Raise e ->
  action_refetch route cls k w = (Raise e, after w [post_request route None] s1).
Proof.
  intros Hpost Hv Hint. unfold post_request in Hpost.
  unfold action_refetch, bind, _post, send, post_request.
  rewrite Hpost.
  unfold try_except_KeyError, lift. rewrite Hv, Hint.
  destruct (py_int_raises v e Hint) as [-> | [-> | ->]]; reflexivity.
Qed.

(** No field of the tuple is called [query_parms]. *)
Lemma query_parms_is_no_field :
  existsb (String.eqb "query_parms") UpdateQueryParams_fields = false.
Proof. reflexivity. Qed.

(** [update_query] never gets past the read of [params.query_parms]. *)
Lemma update_query_raises (i : Z) (p : option UpdateQueryParams)
    (w : world ServerState) :
  update_query i p w =
  (Raise (AttributeError "UpdateQueryParams" "query_parms"), w).
Proof.
  unfold update_query, bind, lift, query_parms. reflexivity.
Qed.

(** The creation request, whatever the parameters. *)
Lemma creation_payload_built (name query_sql : string) (is_private : bool)
    (js : list json) :
  JDict (dict_set [("name", JStr name); ("query_sql", JStr query_sql);
                   ("is_private", JBool is_private)]
                  "parameters" (JList js)) =
  creation_payload name query_sql is_private (Some js).
Proof. reflexivity. Qed.

(** Once the parameters are serialized, [create_query] is the creation
    request followed by the handler-protected fetch. *)
Lemma create_query_posted (name query_sql : string)
    (params : option (list QueryParameter)) (is_private : bool)
    (pjs : option (list json)) :
  serialized params = Ok pjs ->
  create_query name query_sql params is_private =
  (response_json <-
     _post "/query/" (Some (creation_payload name query_sql is_private pjs)) ;;
   try_except_KeyError
     (v <- lift (getitem response_json "query_id") ;;
      query_id <- lift (py_int v) ;;
      get_query query_id)
     (fun err => raise (DuneError response_json "CreateQueryResponse" err))).
Proof.
  unfold serialized, create_query. destruct params as [ps | ].
  - destruct (to_dicts ps) as [js | e]; [ | discriminate].
    intros [= <-]. reflexivity.
  - intros [= <-]. reflexivity.
Qed.

(** A handler that only raises leaves the world where the body left
    it. *)
Lemma try_except_raise_world {A} (body : M ServerState A)
    (f : exn -> exn) (w : world ServerState) :
  snd (try_except_KeyError body (fun err => raise (f err)) w) = snd (body w).
Proof.
  unfold try_except_KeyError, raise.
  destruct (body w) as [[a | e] w']; [reflexivity | destruct e; reflexivity].
Qed.

(** After the first answer, the protected part of a call sends the read
    of the answered id or nothing at all. *)
Lemma protected_fetch_trace {A} (r : json) (k : DuneQuery -> M ServerState A)
    (w : world ServerState) :
  (forall q, exists res, k q = lift res) ->
  exists rest,
    trace (snd ((v <- lift (getitem r "query_id") ;;
                 qid <- lift (py_int v) ;;
                 q <- get_query qid ;;
                 k q) w)) = (trace w ++ rest)%list.
Proof.
  intros Hk. unfold bind, lift.
  destruct (getitem r "query_id") as [v | e];
    [ | exists []; cbn; now rewrite app_nil_r].
  destruct (py_int v) as [qid | e];
    [ | exists []; cbn; now rewrite app_nil_r].
  destruct (get_query_world w qid) as [res [s2 E]]. rewrite E.
  exists [get_request qid].
  destruct res as [q | e]; [ | reflexivity].
  destruct (Hk q) as [res Hres]. rewrite Hres. reflexivity.
Qed.

(** The first request of an action is its POST, whatever follows. *)
Lemma action_refetch_first_request {A} route cls
    (k : DuneQuery -> M ServerState A) (w : world ServerState) :
  (forall q, exists res, k q = lift res) ->
  exists rest,
    trace (snd (action_refetch route cls k w)) =
    (trace w ++ post_request route None :: rest)%list.
Proof.
  intros Hk. unfold action_refetch, bind at 1. unfold _post, send.
  fold (post_request route None).
  destruct (transport (post_request route None) (server w)) as [[r | e] s1];
    [ | exists []; reflexivity].
  rewrite (try_except_raise_world _ (DuneError r cls)).
  destruct (protected_fetch_trace r k
              (mk_world s1 (trace w ++ [post_request route None]) (logs w)) Hk)
    as [rest Hrest].
  exists rest. rewrite Hrest. cbn [trace].
  rewrite <- app_assoc. reflexivity.
Qed.

(** *** Properties of the operations *)

(** C1.  Called without any update field -- [params] omitted, or a tuple
    whose five fields are all [None] -- [update_query] sends nothing, but
    it neither logs the warning nor returns the id: it raises the
    [AttributeError] of [params.query_parms] and leaves the world as it
    was. *)
Theorem update_query_without_fields_raises (i : Z) (w : world ServerState) :
  update_query i None w =
    (Raise (AttributeError "UpdateQueryParams" "query_parms"), w) /\
  update_query i (Some UpdateQueryParams_default) w =
    (Raise (AttributeError "UpdateQueryParams" "query_parms"), w) /\
  update_query i None w <>
    (Ok i, mk_world (server w) (trace w)
             (logs w ++
              [(WARNING, "called update_query with no proposed changes.")])).
Proof.
  rewrite !update_query_raises. repeat split. discriminate.
Qed.

(** C2.  Called with an empty list of tags, or with an empty list of
    parameters, [update_query] puts no payload on the wire at all: it
    raises the [AttributeError] of [params.query_parms] before any
    request, so an emptied field never reaches the server. *)
Theorem update_query_empty_list_sends_nothing (i : Z)
    (w : world ServerState) :
  let clear_tags := mk_UpdateQueryParams None None None None (Some []) in
  let clear_params := mk_UpdateQueryParams None None (Some []) None None in
  update_query i (Some clear_tags) w =
    (Raise (AttributeError "UpdateQueryParams" "query_parms"), w) /\
  update_query i (Some clear_params) w =
    (Raise (AttributeError "UpdateQueryParams" "query_parms"), w) /\
  trace (snd (update_query i (Some clear_tags) w)) = trace w /\
  trace (snd (update_query i (Some clear_params) w)) = trace w.
Proof.
  cbv zeta. rewrite !update_query_raises. repeat split.
Qed.

(** C3.  Whatever fields are supplied, [update_query] issues no [PATCH]
    (the trace of requests is the one before the call) and returns no
    id. *)
Theorem update_query_sends_no_patch (i : Z) (p : UpdateQueryParams)
    (w : world ServerState) :
  trace (snd (update_query i (Some p) w)) = trace w /\
  forall query_id, fst (update_query i (Some p) w) <> Ok query_id.
Proof.
  rewrite update_query_raises. split; [reflexivity | ].
  intros query_id. cbn [fst]. discriminate.
Qed.

(** C5.  The first request of [archive_query i] (resp.
    [unarchive_query i]) is the POST to [/query/{i}/archive] (resp.
    [/unarchive]).  When that action is answered with an id and the
    read of that id yields a query object, the call has sent exactly the
    POST and then the GET, and returns the [is_archived] flag of the
    object read. *)
Theorem archive_query_returns_refetched_flag (i : Z)
    (w : world ServerState) :
  ((exists rest,
       trace (snd (archive_query i w)) =
       (trace w ++ action_request i "/archive" :: rest)%list) /\
   forall r qid s1 q s2,
     answers (server w) (action_request i "/archive") r qid s1 ->
     reads s1 qid q s2 ->
     archive_query i w =
     (Ok (meta_is_archived q),
      after w [action_request i "/archive"; get_request qid] s2)) /\
  ((exists rest,
       trace (snd (unarchive_query i w)) =
       (trace w ++ action_request i "/unarchive" :: rest)%list) /\
   forall r qid s1 q s2,
     answers (server w) (action_request i "/unarchive") r qid s1 ->
     reads s1 qid q s2 ->
     unarchive_query i w =
     (Ok (meta_is_archived q),
      after w [action_request i "/unarchive"; get_request qid] s2)).
Proof.
  split; split.
  - rewrite archive_query_shape. apply action_refetch_first_request.
    intros q; eexists; reflexivity.
  - intros r qid s1 q s2 Hans Hread. rewrite archive_query_shape.
    apply (action_refetch_ok _ _ _ _ _ _ _ _ _ _ Hans Hread);
      [reflexivity | discriminate].
  - rewrite unarchive_query_shape. apply action_refetch_first_request.
    intros q; eexists; reflexivity.
  - intros r qid s1 q s2 Hans Hread. rewrite unarchive_query_shape.
    apply (action_refetch_ok _ _ _ _ _ _ _ _ _ _ Hans Hread);
      [reflexivity | discriminate].
Qed.

(** C6.  When the privacy action on [i] is answered with an id and the
    read of that id yields a query object, [make_private] returns [None]
    if the object is private and raises [AssertionError] otherwise;
    [make_public] returns [None] if it is not private and raises
    [AssertionError] otherwise.  An [AssertionError] is not a
    [DuneError]. *)
Theorem privacy_postcondition_is_asserted (i : Z) (w : world ServerState)
    (r : json) (qid : Z) (s1 : ServerState) (q : DuneQuery)
    (s2 : ServerState) :
  (answers (server w) (action_request i "/private") r qid s1 ->
   reads s1 qid q s2 ->
   make_private i w =
   (if meta_is_private q then Ok tt else Raise AssertionError,
    after w [action_request i "/private"; get_request qid] s2)) /\
  (answers (server w) (action_request i "/unprivate") r qid s1 ->
   reads s1 qid q s2 ->
   make_public i w =
   (if meta_is_private q then Raise AssertionError else Ok tt,
    after w [action_request i "/unprivate"; get_request qid] s2)) /\
  is_DuneError AssertionError = false.
Proof.
  split; [ | split; [ | reflexivity]]; intros Hans Hread.
  - rewrite make_private_shape.
    apply (action_refetch_ok _ _ _ _ _ _ _ _ _ _ Hans Hread).
    + apply py_assert_lift.
    + intros key. destruct (meta_is_private q); discriminate.
  - rewrite make_public_shape.
    replace (if meta_is_private q then Raise AssertionError else Ok tt)
      with (if negb (meta_is_private q)
            then Ok tt else @Raise unit AssertionError)
      by (destruct (meta_is_private q); reflexivity).
    apply (action_refetch_ok _ _ _ _ _ _ _ _ _ _ Hans Hread).
    + apply py_assert_lift.
    + intros key. destruct (meta_is_private q); discriminate.
Qed.

(** C7.  Once the optional parameter list is serialized, the first
    request of [create_query] is the POST to [/query/] of the payload
    made of the name, the SQL text and the privacy flag, with the
    parameters exactly when a list was given.  When the answer carries
    an id under ["query_id"], the call then reads that id, and it
    returns the query object that the read yields. *)
Theorem create_query_posts_then_reads (name query_sql : string)
    (params : option (list QueryParameter)) (is_private : bool)
    (w : world ServerState) (pjs : option (list json)) :
  serialized params = Ok pjs ->
  let create := creation_request
                  (creation_payload name query_sql is_private pjs) in
  (exists rest,
      trace (snd (create_query name query_sql params is_private w)) =
      (trace w ++ create :: rest)%list) /\
  forall r qid s1 q s2,
    answers (server w) create r qid s1 ->
    reads s1 qid q s2 ->
    create_query name query_sql params is_private w =
    (Ok q, after w [create; get_request qid] s2).
Proof.
  intros Hser create. subst create.
  rewrite (create_query_posted _ _ _ _ _ Hser).
  unfold creation_request, post_request.
  set (payload := creation_payload name query_sql is_private pjs).
  split.
  - unfold bind at 1. unfold _post, send.
    destruct (transport (mk_request POST "/query/" (Some payload)) (server w))
      as [[r | e] s1]; [ | exists []; reflexivity].
    rewrite (try_except_raise_world _ (DuneError r "CreateQueryResponse")).
    destruct (protected_fetch_trace r (fun q => ret q)
                (mk_world s1
                   (trace w ++ [mk_request POST "/query/" (Some payload)])
                   (logs w)))
      as [rest Hrest]; [intros q; exists (Ok q); reflexivity | ].
    exists rest.
    replace (trace w ++ mk_request POST "/query/" (Some payload) :: rest)%list
      with ((trace w ++ [mk_request POST "/query/" (Some payload)]) ++ rest)%list
      by (rewrite <- app_assoc; reflexivity).
    cbn [trace] in Hrest. etransitivity; [ | exact Hrest].
    unfold bind, lift, ret.
    destruct (getitem r "query_id") as [v | e]; [ | reflexivity].
    destruct (py_int v) as [qid | e]; [ | reflexivity].
    destruct (get_query qid _) as [[q | e] w']; reflexivity.
  - intros r qid s1 q s2 [Hpost [v [Hv Hid]]] Hread.
    unfold bind at 1. unfold _post, send. rewrite Hpost.
    unfold try_except_KeyError, bind, lift. rewrite Hv, Hid.
    rewrite (get_query_reads (mk_world s1 _ (logs w)) qid q s2 Hread).
    unfold after; cbn [server trace logs].
    rewrite <- app_assoc. reflexivity.
Qed.

(** C8.  Against a server that honours the archive routes for the query
    [i], [archive_query i] sends the POST to [/query/{i}/archive] and
    the GET of [i] and returns [True], and a following
    [unarchive_query i] sends the POST to [/query/{i}/unarchive] and
    the GET of [i] and returns [False].  When, besides, a read leaves
    the flag as it finds it, the query is archived after the first call
    and no longer archived after the second. *)
Theorem archive_then_unarchive (archived : ServerState -> Z -> bool) (i : Z) :
  honours_archive_routes archived i ->
  forall w, exists s2 s4,
    let w1 := after w [action_request i "/archive"; get_request i] s2 in
    let w2 := after w1 [action_request i "/unarchive"; get_request i] s4 in
    archive_query i w = (Ok true, w1) /\
    unarchive_query i w1 = (Ok false, w2) /\
    ((forall s q s', reads s i q s' -> archived s' i = archived s i) ->
     archived (server w1) i = true /\ archived (server w2) i = false).
Proof.
  intros [Harchive [Hunarchive Hget]] w.
  destruct (Harchive (server w)) as [r [s1 [Hans Hset]]].
  destruct (Hget s1) as [q [s2 [Hread Hflag]]].
  rewrite Hset in Hflag.
  pose (w1 := after w [action_request i "/archive"; get_request i] s2).
  destruct (Hunarchive (server w1)) as [r' [s3 [Hans' Hclear]]].
  destruct (Hget s3) as [q' [s4 [Hread' Hflag']]].
  rewrite Hclear in Hflag'.
  exists s2, s4. cbv zeta. fold w1.
  split; [ | split].
  - assert (E : archive_query i w = (Ok (meta_is_archived q), w1)).
    { rewrite archive_query_shape.
      apply (action_refetch_ok _ _ _ _ _ _ _ _ _ _ Hans Hread);
        [reflexivity | discriminate]. }
    rewrite Hflag in E. exact E.
  - assert (E : unarchive_query i w1 =
                (Ok (meta_is_archived q'),
                 after w1 [action_request i "/unarchive"; get_request i] s4)).
    { rewrite unarchive_query_shape.
      apply (action_refetch_ok _ _ _ _ _ _ _ _ _ _ Hans' Hread');
        [reflexivity | discriminate]. }
    rewrite Hflag' in E. exact E.
  - intros Hkeep. unfold w1, after. cbn [server]. split.
    + rewrite (Hkeep s1 q s2 Hread). exact Hset.
    + rewrite (Hkeep s3 q' s4 Hread'). exact Hclear.
Qed.

(** C9.  In each of the four actions the re-fetch goes to the id found
    under ["query_id"] in the action's answer, whatever id the caller
    gave: the request after the action is the GET of the answered id,
    and the flag returned, or asserted, is the one of the query object
    read under that id. *)
Theorem refetch_uses_answered_id (i : Z) (w : world ServerState) (r : json)
    (qid : Z) (s1 : ServerState) :
  (answers (server w) (action_request i "/archive") r qid s1 ->
   refetches (archive_query i) w (action_request i "/archive") qid s1
     (fun q => Ok (meta_is_archived q))) /\
  (answers (server w) (action_request i "/unarchive") r qid s1 ->
   refetches (unarchive_query i) w (action_request i "/unarchive") qid s1
     (fun q => Ok (meta_is_archived q))) /\
  (answers (server w) (action_request i "/private") r qid s1 ->
   refetches (make_private i) w (action_request i "/private") qid s1
     (fun q => if meta_is_private q then Ok tt else Raise AssertionError)) /\
  (answers (server w) (action_request i "/unprivate") r qid s1 ->
   refetches (make_public i) w (action_request i "/unprivate") qid s1
     (fun q => if negb (meta_is_private q)
               then Ok tt else Raise AssertionError)).
Proof.
  split; [ | split; [ | split]]; intros Hans; split.
  - rewrite archive_query_shape.
    apply (action_refetch_trace _ _ _ _ _ _ _ Hans).
    intros q; eexists; reflexivity.
  - intros q s2 Hread. rewrite archive_query_shape.
    apply (action_refetch_ok _ _ _ _ _ _ _ _ _ _ Hans Hread);
      [reflexivity | discriminate].
  - rewrite unarchive_query_shape.
    apply (action_refetch_trace _ _ _ _ _ _ _ Hans).
    intros q; eexists; reflexivity.
  - intros q s2 Hread. rewrite unarchive_query_shape.
    apply (action_refetch_ok _ _ _ _ _ _ _ _ _ _ Hans Hread);
      [reflexivity | discriminate].
  - rewrite make_private_shape.
    apply (action_refetch_trace _ _ _ _ _ _ _ Hans).
    intros q; eexists; apply py_assert_lift.
  - intros q s2 Hread. rewrite make_private_shape.
    apply (action_refetch_ok _ _ _ _ _ _ _ _ _ _ Hans Hread);
      [apply py_assert_lift | destruct (meta_is_private q); discriminate].
  - rewrite make_public_shape.
    apply (action_refetch_trace _ _ _ _ _ _ _ Hans).
    intros q; eexists; apply py_assert_lift.
  - intros q s2 Hread. rewrite make_public_shape.
    apply (action_refetch_ok _ _ _ _ _ _ _ _ _ _ Hans Hread);
      [apply py_assert_lift | destruct (meta_is_private q); discriminate].
Qed.

(** *** The handler of the five operations that reach their request *)

(** When the answer to its first request has no ["query_id"] key, each
    of [create_query], [archive_query], [unarchive_query],
    [make_private] and [make_public] raises a [DuneError] that carries
    the answer, the name of the response under construction and the
    [KeyError]; no second request is sent. *)
Theorem missing_query_id_raises_DuneError (i : Z) (name query_sql : string)
    (params : option (list QueryParameter)) (is_private : bool)
    (pjs : option (list json)) (w : world ServerState) (r : json)
    (s1 : ServerState) :
  let create := creation_request
                  (creation_payload name query_sql is_private pjs) in
  (serialized params = Ok pjs ->
   answers_without_id (server w) create r s1 ->
   create_query name query_sql params is_private w =
   (Raise (DuneError r "CreateQueryResponse" (KeyError "query_id")),
    after w [create] s1)) /\
  (answers_without_id (server w) (action_request i "/archive") r s1 ->
   archive_query i w =
   (Raise (DuneError r "ArchiveQueryResponse" (KeyError "query_id")),
    after w [action_request i "/archive"] s1)) /\
  (answers_without_id (server w) (action_request i "/unarchive") r s1 ->
   unarchive_query i w =
   (Raise (DuneError r "UnarchiveQueryResponse" (KeyError "query_id")),
    after w [action_request i "/unarchive"] s1)) /\
  (answers_without_id (server w) (action_request i "/private") r s1 ->
   make_private i w =
   (Raise (DuneError r "MakePrivateResponse" (KeyError "query_id")),
    after w [action_request i "/private"] s1)) /\
  (answers_without_id (server w) (action_request i "/unprivate") r s1 ->
   make_public i w =
   (Raise (DuneError r "MakePublicResponse" (KeyError "query_id")),
    after w [action_request i "/unprivate"] s1)).
Proof.
  cbv zeta. split; [ | repeat split; intros [Hpost Hkey]].
  - intros Hser [Hpost Hkey].
    rewrite (create_query_posted _ _ _ _ _ Hser).
    unfold creation_request, post_request in *.
    unfold bind, _post, send. rewrite Hpost.
    unfold try_except_KeyError, lift. rewrite Hkey. reflexivity.
  - rewrite archive_query_shape.
    apply action_refetch_missing_key; assumption.
  - rewrite unarchive_query_shape.
    apply action_refetch_missing_key; assumption.
  - rewrite make_private_shape.
    apply action_refetch_missing_key; assumption.
  - rewrite make_public_shape.
    apply action_refetch_missing_key; assumption.
Qed.

(** When the answer to its first request has a ["query_id"] on which
    [int] raises, each of the same five operations raises that very
    exception, not a [DuneError]; no second request is sent. *)
Theorem conversion_error_is_not_wrapped (i : Z) (name query_sql : string)
    (params : option (list QueryParameter)) (is_private : bool)
    (pjs : option (list json)) (w : world ServerState) (r : json) (e : exn)
    (s1 : ServerState) :
  let create := creation_request
                  (creation_payload name query_sql is_private pjs) in
  (serialized params = Ok pjs ->
   answers_with_bad_id (server w) create r e s1 ->
   create_query name query_sql params is_private w =
   (Raise e, after w [create] s1)) /\
  (answers_with_bad_id (server w) (action_request i "/archive") r e s1 ->
   archive_query i w = (Raise e, after w [action_request i "/archive"] s1)) /\
  (answers_with_bad_id (server w) (action_request i "/unarchive") r e s1 ->
   unarchive_query i w =
   (Raise e, after w [action_request i "/unarchive"] s1)) /\
  (answers_with_bad_id (server w) (action_request i "/private") r e s1 ->
   make_private i w = (Raise e, after w [action_request i "/private"] s1)) /\
  (answers_with_bad_id (server w) (action_request i "/unprivate") r e s1 ->
   make_public i w = (Raise e, after w [action_request i "/unprivate"] s1)) /\
  (forall v, py_int v = Raise e -> is_DuneError e = false).
Proof.
  cbv zeta.
  split; [ | repeat split; try intros [Hpost [v [Hv Hint]]]].
  - intros Hser [Hpost [v [Hv Hint]]].
    rewrite (create_query_posted _ _ _ _ _ Hser).
    unfold creation_request, post_request in *.
    unfold bind, _post, send. rewrite Hpost.
    unfold try_except_KeyError, lift. rewrite Hv, Hint.
    destruct (py_int_raises v e Hint) as [-> | [-> | ->]]; reflexivity.
  - rewrite archive_query_shape.
    eapply action_refetch_bad_id; eassumption.
  - rewrite unarchive_query_shape.
    eapply action_refetch_bad_id; eassumption.
  - rewrite make_private_shape.
    eapply action_refetch_bad_id; eassumption.
  - rewrite make_public_shape.
    eapply action_refetch_bad_id; eassumption.
  - intros v Hint.
    destruct (py_int_raises v e Hint) as [-> | [-> | ->]]; reflexivity.
Qed.

(** *** Failures of the collaborators *)

Lemma get_query_read_fails (w : world ServerState) qid e s2 :
  read_fails (server w) qid e s2 ->
  get_query qid w = (Raise e, after w [get_request qid] s2).
Proof.
  unfold get_query, bind, _get, send, lift, after.
  fold (get_request qid).
  intros [Hget | [g [Hget Hq]]]; rewrite Hget; [ | rewrite Hq]; reflexivity.
Qed.

Lemma action_refetch_read_fails {A} route cls
    (k : DuneQuery -> M ServerState A) (w : world ServerState)
    r qid s1 e s2 :
  answers (server w) (post_request route None) r qid s1 ->
  read_fails s1 qid e s2 ->
  action_refetch route cls k w =
  (Raise (handled r cls e),
   after w [post_request route None; get_request qid] s2).
Proof.
  intros Hans Hfail.
  rewrite (action_refetch_answered _ _ _ _ _ _ _ Hans).
  unfold try_except_KeyError, bind.
  rewrite (get_query_read_fails (after w _ s1) qid e s2 Hfail).
  unfold after, raise; cbn [server trace logs].
  rewrite <- app_assoc; cbn [app].
  destruct e; reflexivity.
Qed.

Lemma action_refetch_transport_fails {A} route cls
    (k : DuneQuery -> M ServerState A) (w : world ServerState) e s1 :
  transport (post_request route None) (server w) = (Raise e, s1) ->
  action_refetch route cls k w =
  (Raise e, after w [post_request route None] s1).
Proof.
  intros Hpost. unfold post_request in Hpost.
  unfold action_refetch, bind, _post, send, post_request.
  rewrite Hpost. reflexivity.
Qed.

(** [get_query] translates nothing: whatever the read fails with --
    also a [KeyError] of [from_dict] on a malformed answer -- reaches the
    caller as it is, after the one GET of the id. *)
Theorem get_query_does_not_translate (qid : Z) (w : world ServerState)
    (e : exn) (s2 : ServerState) :
  read_fails (server w) qid e s2 ->
  get_query qid w = (Raise e, after w [get_request qid] s2) /\
  (is_DuneError e = false ->
   forall d cls err, fst (get_query qid w) <> Raise (DuneError d cls err)).
Proof.
  intros Hfail. rewrite (get_query_read_fails w qid e s2 Hfail).
  split; [reflexivity | ].
  intros Hno d cls err [= ->]. discriminate.
Qed.

(** When the action is answered with an id and the read of that id
    fails, a [KeyError] of the read is reported as a [DuneError] that
    carries the answer of the action -- not the answer of the read --
    and the response name of the action; every other exception of the
    read reaches the caller as it is.  This holds for [create_query]
    and for the four actions. *)
Theorem refetch_failure_is_handled (i : Z) (name query_sql : string)
    (params : option (list QueryParameter)) (is_private : bool)
    (pjs : option (list json)) (w : world ServerState) (r : json) (qid : Z)
    (s1 : ServerState) (e : exn) (s2 : ServerState) :
  read_fails s1 qid e s2 ->
  let create := creation_request
                  (creation_payload name query_sql is_private pjs) in
  (serialized params = Ok pjs ->
   answers (server w) create r qid s1 ->
   create_query name query_sql params is_private w =
   (Raise (handled r "CreateQueryResponse" e),
    after w [create; get_request qid] s2)) /\
  (answers (server w) (action_request i "/archive") r qid s1 ->
   archive_query i w =
   (Raise (handled r "ArchiveQueryResponse" e),
    after w [action_request i "/archive"; get_request qid] s2)) /\
  (answers (server w) (action_request i "/unarchive") r qid s1 ->
   unarchive_query i w =
   (Raise (handled r "UnarchiveQueryResponse" e),
    after w [action_request i "/unarchive"; get_request qid] s2)) /\
  (answers (server w) (action_request i "/private") r qid s1 ->
   make_private i w =
   (Raise (handled r "MakePrivateResponse" e),
    after w [action_request i "/private"; get_request qid] s2)) /\
  (answers (server w) (action_request i "/unprivate") r qid s1 ->
   make_public i w =
   (Raise (handled r "MakePublicResponse" e),
    after w [action_request i "/unprivate"; get_request qid] s2)).
Proof.
  intros Hfail create. subst create.
  split; [ | repeat split; intros Hans].
  - intros Hser [Hpost [v [Hv Hid]]].
    rewrite (create_query_posted _ _ _ _ _ Hser).
    unfold creation_request, post_request in *.
    unfold bind at 1. unfold _post, send. rewrite Hpost.
    unfold try_except_KeyError, bind, lift. rewrite Hv, Hid.
    rewrite (get_query_read_fails (mk_world s1 _ (logs w)) qid e s2 Hfail).
    unfold after, raise; cbn [server trace logs].
    rewrite <- app_assoc; cbn [app].
    destruct e; reflexivity.
  - rewrite archive_query_shape.
    apply (action_refetch_read_fails _ _ _ _ _ _ _ _ _ Hans Hfail).
  - rewrite unarchive_query_shape.
    apply (action_refetch_read_fails _ _ _ _ _ _ _ _ _ Hans Hfail).
  - rewrite make_private_shape.
    apply (action_refetch_read_fails _ _ _ _ _ _ _ _ _ Hans Hfail).
  - rewrite make_public_shape.
    apply (action_refetch_read_fails _ _ _ _ _ _ _ _ _ Hans Hfail).
Qed.

(** An exception raised by the first request of [create_query] or of
    one of the four actions reaches the caller as it is, a [KeyError]
    included: the request is made outside the [try].  Nothing is sent
    after it. *)
Theorem first_request_failure_propagates (i : Z) (name query_sql : string)
    (params : option (list QueryParameter)) (is_private : bool)
    (pjs : option (list json)) (w : world ServerState) (e : exn)
    (s1 : ServerState) :
  let create := creation_request
                  (creation_payload name query_sql is_private pjs) in
  (serialized params = Ok pjs ->
   transport create (server w) = (Raise e, s1) ->
   create_query name query_sql params is_private w =
   (Raise e, after w [create] s1)) /\
  (transport (action_request i "/archive") (server w) = (Raise e, s1) ->
   archive_query i w = (Raise e, after w [action_request i "/archive"] s1)) /\
  (transport (action_request i "/unarchive") (server w) = (Raise e, s1) ->
   unarchive_query i w =
   (Raise e, after w [action_request i "/unarchive"] s1)) /\
  (transport (action_request i "/private") (server w) = (Raise e, s1) ->
   make_private i w = (Raise e, after w [action_request i "/private"] s1)) /\
  (transport (action_request i "/unprivate") (server w) = (Raise e, s1) ->
   make_public i w = (Raise e, after w [action_request i "/unprivate"] s1)).
Proof.
  cbv zeta. split; [ | repeat split; intros Hpost].
  - intros Hser Hpost.
    rewrite (create_query_posted _ _ _ _ _ Hser).
    unfold creation_request, post_request in *.
    unfold bind, _post, send. rewrite Hpost. reflexivity.
  - rewrite archive_query_shape.
    apply action_refetch_transport_fails; assumption.
  - rewrite unarchive_query_shape.
    apply action_refetch_transport_fails; assumption.
  - rewrite make_private_shape.
    apply action_refetch_transport_fails; assumption.
  - rewrite make_public_shape.
    apply action_refetch_transport_fails; assumption.
Qed.

(** The first parameter that [to_dict] refuses decides a failure of
    the list. *)
Lemma to_dicts_raises (ps : list QueryParameter) (e : exn) :
  to_dicts ps = Raise e -> exists p, In p ps /\ to_dict p = Raise e.
Proof.
  induction ps as [ | p ps IH]; cbn; [discriminate | ].
  destruct (to_dict p) as [j | e'] eqn:Hp.
  - destruct (to_dicts ps) as [js | e'']; [discriminate | ].
    intros [= <-]. destruct (IH eq_refl) as [p' [Hin Hp']].
    exists p'. split; [right; exact Hin | exact Hp'].
  - intros [= <-]. exists p. split; [left; reflexivity | exact Hp].
Qed.

(** A parameter list serializes to one entry per parameter, in order. *)
Lemma to_dicts_ok (ps : list QueryParameter) (js : list json) :
  to_dicts ps = Ok js -> Forall2 (fun p j => to_dict p = Ok j) ps js.
Proof.
  revert js. induction ps as [ | p ps IH]; cbn; intros js.
  - intros [= <-]. constructor.
  - destruct (to_dict p) as [j | e] eqn:Hp; [ | discriminate].
    destruct (to_dicts ps) as [js' | e]; [ | discriminate].
    intros [= <-]. constructor; [exact Hp | apply IH; reflexivity].
Qed.

(** When a parameter of the list cannot be serialized, [create_query]
    raises what [to_dict] raised on it and sends nothing: the world is
    the one before the call. *)
Theorem create_query_serialization_failure (name query_sql : string)
    (ps : list QueryParameter) (is_private : bool) (w : world ServerState)
    (e : exn) :
  to_dicts ps = Raise e ->
  create_query name query_sql (Some ps) is_private w = (Raise e, w) /\
  exists p, In p ps /\ to_dict p = Raise e.
Proof.
  intros Hser. split; [ | exact (to_dicts_raises ps e Hser)].
  unfold create_query, bind at 1. unfold bind at 2. unfold lift.
  rewrite Hser. reflexivity.
Qed.

(** *** What the operations send *)

Lemma after_nothing (w : world ServerState) : after w [] (server w) = w.
Proof. destruct w. unfold after. cbn. now rewrite app_nil_r. Qed.

Lemma after_after (w : world ServerState) reqs reqs' s s' :
  after (after w reqs s) reqs' s' = after w (reqs ++ reqs') s'.
Proof. unfold after. cbn. now rewrite app_assoc. Qed.

Lemma get_query_issues (qid : Z) (w : world ServerState) :
  issues (get_query qid) w [get_request qid].
Proof.
  destruct (get_query_world w qid) as [res [s2 E]].
  unfold issues. now rewrite E.
Qed.

Lemma bind_ext {A B} (m : M ServerState A) (k1 k2 : A -> M ServerState B)
    (w : world ServerState) :
  (forall a w', k1 a w' = k2 a w') -> bind m k1 w = bind m k2 w.
Proof.
  intros Hk. unfold bind. destruct (m w) as [[a | e] w']; auto.
Qed.

Lemma try_except_ext {A} (b1 b2 : M ServerState A) (h : exn -> M ServerState A)
    (w : world ServerState) :
  (forall w', b1 w' = b2 w') ->
  try_except_KeyError b1 h w = try_except_KeyError b2 h w.
Proof.
  intros Hb. unfold try_except_KeyError. now rewrite Hb.
Qed.

Lemma protected_fetch_world {A} (r : json)
    (k : DuneQuery -> M ServerState A) (w : world ServerState) :
  (forall q, exists res, k q = lift res) ->
  exists reqs s,
    snd ((v <- lift (getitem r "query_id") ;;
          qid <- lift (py_int v) ;;
          q <- get_query qid ;;
          k q) w) = after w reqs s /\
    (reqs = [] \/ exists qid, reqs = [get_request qid]).
Proof.
  intros Hk. unfold bind, lift.
  destruct (getitem r "query_id") as [v | e];
    [ | exists [], (server w); rewrite after_nothing; auto].
  destruct (py_int v) as [qid | e];
    [ | exists [], (server w); rewrite after_nothing; auto].
  destruct (get_query_world w qid) as [res [s2 E]]. rewrite E.
  exists [get_request qid], s2. split; [ | right; exists qid; reflexivity].
  destruct res as [q | e]; [ | reflexivity].
  destruct (Hk q) as [res Hres]. now rewrite Hres.
Qed.

Lemma post_refetch_world {A} route body cls
    (k : DuneQuery -> M ServerState A) (w : world ServerState) :
  (forall q, exists res, k q = lift res) ->
  exists reqs s,
    snd (post_refetch route body cls k w) =
    after w (post_request route body :: reqs) s /\
    (reqs = [] \/ exists qid, reqs = [get_request qid]).
Proof.
  intros Hk. unfold post_refetch, bind at 1. unfold _post, send.
  fold (post_request route body).
  destruct (transport (post_request route body) (server w)) as [[r | e] s1];
    [ | exists [], s1; split; [reflexivity | auto]].
  rewrite (try_except_raise_world _ (DuneError r cls)).
  fold (after w [post_request route body] s1).
  destruct (protected_fetch_world r k
              (after w [post_request route body] s1) Hk)
    as [reqs [s [E Hreqs]]].
  exists reqs, s. rewrite E, after_after. split; [reflexivity | exact Hreqs].
Qed.

Lemma post_refetch_issues {A} route body cls
    (k : DuneQuery -> M ServerState A) (w : world ServerState) :
  (forall q, exists res, k q = lift res) ->
  issues (post_refetch route body cls k) w [post_request route body] \/
  exists qid,
    issues (post_refetch route body cls k) w
           [post_request route body; get_request qid].
Proof.
  intros Hk. unfold issues.
  destruct (post_refetch_world route body cls k w Hk)
    as [reqs [s [E [-> | [qid ->]]]]]; rewrite E.
  - left. reflexivity.
  - right. exists qid. reflexivity.
Qed.

(** With its parameters serialized, [create_query] has the shape of
    the actions. *)
Lemma create_query_shape (name query_sql : string)
    (params : option (list QueryParameter)) (is_private : bool)
    (pjs : option (list json)) (w : world ServerState) :
  serialized params = Ok pjs ->
  create_query name query_sql params is_private w =
  post_refetch "/query/"
    (Some (creation_payload name query_sql is_private pjs))
    "CreateQueryResponse" (fun q => ret q) w.
Proof.
  intros Hser. rewrite (create_query_posted _ _ _ _ _ Hser).
  unfold post_refetch.
  apply bind_ext. intros r w1.
  apply try_except_ext. intros w2.
  apply bind_ext. intros v w3.
  apply bind_ext. intros qid w4.
  unfold bind, ret.
  destruct (get_query qid w4) as [[q | e] w5]; reflexivity.
Qed.

(** No operation that reaches the network issues more than two
    requests, whatever the server answers and whatever the collaborators
    raise.  [get_query] issues its GET and nothing else; each of the
    four actions issues its POST and then at most one GET;
    [create_query] with serializable parameters issues its POST and
    then at most one GET.  None issues a second POST or a PATCH. *)
Theorem operations_send_at_most_two_requests (i : Z)
    (name query_sql : string) (params : option (list QueryParameter))
    (is_private : bool) (pjs : option (list json))
    (w : world ServerState) :
  let then_read {A} (call : M ServerState A) (first : request) :=
    issues call w [first] \/
    exists qid, issues call w [first; get_request qid] in
  issues (get_query i) w [get_request i] /\
  then_read (archive_query i) (action_request i "/archive") /\
  then_read (unarchive_query i) (action_request i "/unarchive") /\
  then_read (make_private i) (action_request i "/private") /\
  then_read (make_public i) (action_request i "/unprivate") /\
  (serialized params = Ok pjs ->
   then_read (create_query name query_sql params is_private)
     (creation_request (creation_payload name query_sql is_private pjs))).
Proof.
  cbv zeta. repeat split.
  - apply get_query_issues.
  - rewrite archive_query_shape. apply post_refetch_issues.
    intros q; eexists; reflexivity.
  - rewrite unarchive_query_shape. apply post_refetch_issues.
    intros q; eexists; reflexivity.
  - rewrite make_private_shape. apply post_refetch_issues.
    intros q; eexists; apply py_assert_lift.
  - rewrite make_public_shape. apply post_refetch_issues.
    intros q; eexists; apply py_assert_lift.
  - intros Hser. unfold issues.
    rewrite !(create_query_shape _ _ _ _ _ w Hser).
    apply post_refetch_issues. intros q; exists (Ok q); reflexivity.
Qed.

(** Against a server that honours the privacy routes for the query [i],
    [make_private i] returns and leaves the query private, and a
    following [make_public i] returns and leaves it public. *)
Theorem make_private_then_make_public (private : ServerState -> Z -> bool)
    (i : Z) :
  honours_privacy_routes private i ->
  forall w, exists w1 w2,
    make_private i w = (Ok tt, w1) /\ private (server w1) i = true /\
    make_public i w1 = (Ok tt, w2) /\ private (server w2) i = false.
Proof.
  intros [Hprivate [Hpublic Hget]] w.
  destruct (Hprivate (server w)) as [r [s1 [Hans Hset]]].
  destruct (Hget s1) as [q [s2 [Hread [Hflag Hkeep]]]].
  rewrite Hset in Hflag, Hkeep.
  pose (w1 := after w [action_request i "/private"; get_request i] s2).
  destruct (Hpublic (server w1)) as [r' [s3 [Hans' Hclear]]].
  destruct (Hget s3) as [q' [s4 [Hread' [Hflag' Hkeep']]]].
  rewrite Hclear in Hflag', Hkeep'.
  exists w1, (after w1 [action_request i "/unprivate"; get_request i] s4).
  repeat split.
  - rewrite make_private_shape.
    apply (action_refetch_ok _ _ _ _ _ _ _ _ _ _ Hans Hread).
    + rewrite py_assert_lift, Hflag. reflexivity.
    + discriminate.
  - exact Hkeep.
  - rewrite make_public_shape.
    apply (action_refetch_ok _ _ _ _ _ _ _ _ _ _ Hans' Hread').
    + rewrite py_assert_lift, Hflag'. reflexivity.
    + discriminate.
  - exact Hkeep'.
Qed.

(** *** Ids on the wire: [str] and [int] *)

Ltac read_digit :=
  unfold digits;
  cbn [NilEmpty.string_of_uint list_ascii_of_string digits_value];
  match goal with
  | |- context [digit_of ?c] =>
      let v := eval vm_compute in (digit_of c) in
      change (digit_of c) with v
  end;
  cbv iota;
  match goal with
  | |- context [list_ascii_of_string (NilEmpty.string_of_uint ?d)] =>
      fold (digits d)
  end.

Lemma digits_value_acc (d : Decimal.uint) (acc : positive) :
  digits_value (Z.pos acc) true (digits d) =
  Some (Z.pos (Pos.of_uint_acc d acc)).
Proof.
  revert acc. induction d; intros acc; [reflexivity | ..];
    read_digit; cbn [Pos.of_uint_acc]; rewrite <- IHd; f_equal; lia.
Qed.

Lemma digits_value_after_digit (d : Decimal.uint) :
  digits_value 0 true (digits d) = Some (Z.of_N (Pos.of_uint d)).
Proof.
  induction d; [reflexivity | ..]; read_digit; cbn [Pos.of_uint];
    [exact IHd | ..]; apply (digits_value_acc d).
Qed.

Lemma digits_value_fresh (d : Decimal.uint) :
  d <> Decimal.Nil ->
  digits_value 0 false (digits d) = Some (Z.of_N (Pos.of_uint d)).
Proof.
  destruct d; intros Hd; [congruence | ..]; read_digit; cbn [Pos.of_uint];
    [apply (digits_value_after_digit d) | ..]; apply (digits_value_acc d).
Qed.

Lemma digits_plain (d : Decimal.uint) :
  Forall (fun c => is_space c = false) (digits d).
Proof. induction d; constructor; auto. Qed.

Lemma lstrip_plain (cs : list ascii) :
  Forall (fun c => is_space c = false) cs -> lstrip cs = cs.
Proof. destruct 1 as [ | c cs Hc _]; cbn; [ | rewrite Hc]; reflexivity. Qed.

Lemma strip_plain (cs : list ascii) :
  Forall (fun c => is_space c = false) cs -> strip cs = cs.
Proof.
  intros H. unfold strip. rewrite (lstrip_plain cs H).
  rewrite lstrip_plain by (apply Forall_rev; exact H).
  apply rev_involutive.
Qed.

Lemma digits_head (d : Decimal.uint) :
  d <> Decimal.Nil ->
  exists c cs, digits d = c :: cs /\
               Ascii.eqb c "-" = false /\ Ascii.eqb c "+" = false.
Proof.
  destruct d; intros Hd; try congruence; eexists; eexists;
    (split; [reflexivity | split; reflexivity]).
Qed.

Lemma string_of_uint_nonnil (d : Decimal.uint) :
  d <> Decimal.Nil ->
  NilZero.string_of_uint d = NilEmpty.string_of_uint d.
Proof. destruct d; [intros H; now elim H | reflexivity ..]. Qed.

(** [int(str(n)) == n]. *)
Lemma int_of_str_py_str (n : Z) : int_of_str (py_str n) = Ok n.
Proof.
  destruct n as [ | p | p]; [reflexivity | | ].
  - unfold py_str, int_of_str. cbn [Z.to_int NilZero.string_of_int].
    pose proof (Unsigned.to_uint_nonnil p) as Hnil.
    rewrite (string_of_uint_nonnil _ Hnil).
    fold (digits (Pos.to_uint p)).
    rewrite (strip_plain _ (digits_plain _)).
    destruct (digits_head _ Hnil) as [c [cs [E [Hm Hp]]]].
    rewrite E, Hm, Hp, <- E.
    rewrite (digits_value_fresh _ Hnil), Unsigned.of_to. reflexivity.
  - unfold py_str, int_of_str. cbn [Z.to_int NilZero.string_of_int].
    pose proof (Unsigned.to_uint_nonnil p) as Hnil.
    rewrite (string_of_uint_nonnil _ Hnil).
    cbn [list_ascii_of_string]. fold (digits (Pos.to_uint p)).
    rewrite strip_plain by (constructor; [reflexivity | apply digits_plain]).
    cbn [Ascii.eqb Bool.eqb].
    rewrite (digits_value_fresh _ Hnil), Unsigned.of_to. reflexivity.
Qed.

Lemma py_str_inj (i j : Z) : py_str i = py_str j -> i = j.
Proof.
  intros H. apply (f_equal int_of_str) in H.
  rewrite !int_of_str_py_str in H. congruence.
Qed.

Lemma length_append (a b : string) :
  String.length (a ++ b) = (String.length a + String.length b)%nat.
Proof. induction a as [ | c a IH]; cbn; [ | rewrite IH]; reflexivity. Qed.

Lemma append_inv_tail (a b t : string) : a ++ t = b ++ t -> a = b.
Proof.
  revert b. induction a as [ | c a IH]; intros [ | c' b] H; cbn in H.
  - reflexivity.
  - apply (f_equal String.length) in H. cbn in H.
    rewrite length_append in H. lia.
  - apply (f_equal String.length) in H. cbn in H.
    rewrite length_append in H. lia.
  - injection H as -> H. f_equal. apply IH, H.
Qed.

(** Two queries never share a route: the read routes of distinct ids
    differ, and so do their routes for one and the same action. *)
Theorem routes_distinguish_queries (i j : Z) :
  i <> j ->
  get_request i <> get_request j /\
  forall action, action_request i action <> action_request j action.
Proof.
  intros Hij. split.
  - intros [= H]. apply Hij, py_str_inj. exact H.
  - intros action [= H]. apply Hij, py_str_inj.
    apply (append_inv_tail _ _ action). exact H.
Qed.

(** An id that the server answers as a decimal string is read as the
    integer it spells: [int(str(j)) == j], and an archive action
    answered with [str(j)] re-fetches [j] and returns the flag of the
    query object read under [j]. *)
Theorem id_answered_as_decimal_string (i j : Z) (w : world ServerState)
    (r : json) (s1 : ServerState) (q : DuneQuery) (s2 : ServerState) :
  transport (action_request i "/archive") (server w) = (Ok r, s1) ->
  getitem r "query_id" = Ok (JStr (py_str j)) ->
  reads s1 j q s2 ->
  py_int (JStr (py_str j)) = Ok j /\
  archive_query i w =
  (Ok (meta_is_archived q),
   after w [action_request i "/archive"; get_request j] s2).
Proof.
  intros Hpost Hid Hread.
  assert (Hint : py_int (JStr (py_str j)) = Ok j)
    by apply int_of_str_py_str.
  split; [exact Hint | ].
  rewrite archive_query_shape.
  apply (action_refetch_ok _ _ _ _ r j s1 q s2 _);
    [ | exact Hread | reflexivity | discriminate].
  split; [exact Hpost | ]. exists (JStr (py_str j)). split; assumption.
Qed.

(** Whatever comes of the call, the first request of [create_query]
    with serializable parameters carries the name, the SQL text and the
    privacy flag under ["name"], ["query_sql"] and ["is_private"];
    ["parameters"] is absent when no list was given, and otherwise holds
    one entry per parameter, in order, each the [to_dict] of its
    parameter -- an empty array for an empty list. *)
Theorem create_query_payload_fields (name query_sql : string)
    (params : option (list QueryParameter)) (is_private : bool)
    (w : world ServerState) (pjs : option (list json)) :
  serialized params = Ok pjs ->
  exists payload rest,
    trace (snd (create_query name query_sql params is_private w)) =
    (trace w ++ creation_request payload :: rest)%list /\
    getitem payload "name" = Ok (JStr name) /\
    getitem payload "query_sql" = Ok (JStr query_sql) /\
    getitem payload "is_private" = Ok (JBool is_private) /\
    match params with
    | None => getitem payload "parameters" = Raise (KeyError "parameters")
    | Some ps =>
        exists js,
          getitem payload "parameters" = Ok (JList js) /\
          Forall2 (fun p j => to_dict p = Ok j) ps js
    end.
Proof.
  intros Hser.
  exists (creation_payload name query_sql is_private pjs).
  rewrite (create_query_shape _ _ _ _ _ w Hser).
  destruct (post_refetch_world "/query/"
              (Some (creation_payload name query_sql is_private pjs))
              "CreateQueryResponse" (fun q => ret q) w)
    as [rest [s [E _]]]; [intros q; exists (Ok q); reflexivity | ].
  exists rest. rewrite E. split; [reflexivity | ].
  unfold serialized in Hser. destruct params as [ps | ].
  - destruct (to_dicts ps) as [js | e] eqn:Hps; [ | discriminate].
    injection Hser as <-. repeat split.
    exists js. split; [reflexivity | apply to_dicts_ok, Hps].
  - injection Hser as <-. repeat split.
Qed.

(** *** No [KeyError] out of an answered call *)

Lemma try_except_no_KeyError {A} (body : M ServerState A)
    (r : json) (cls : string) (w : world ServerState) (k : string) :
  fst (try_except_KeyError body
         (fun err => raise (DuneError r cls err)) w) <> Raise (KeyError k).
Proof.
  unfold try_except_KeyError, raise.
  destruct (body w) as [[a | e] w']; [discriminate | ].
  destruct e; discriminate.
Qed.

Lemma post_refetch_no_KeyError {A} route body cls
    (k : DuneQuery -> M ServerState A) (w : world ServerState) r s1 key :
  transport (post_request route body) (server w) = (Ok r, s1) ->
  fst (post_refetch route body cls k w) <> Raise (KeyError key).
Proof.
  intros Hpost. unfold post_request in Hpost.
  unfold post_refetch, bind at 1. unfold _post, send. rewrite Hpost.
  apply try_except_no_KeyError.
Qed.

(** Once its first request is answered, [create_query] and the four
    actions never raise a [KeyError]: whichever step raises one -- the
    lookup of ["query_id"], the read, [from_dict] -- the caller sees a
    [DuneError]. *)
Theorem answered_call_never_raises_KeyError (i : Z)
    (name query_sql : string) (params : option (list QueryParameter))
    (is_private : bool) (pjs : option (list json)) (w : world ServerState)
    (r : json) (s1 : ServerState) (key : string) :
  let create := creation_request
                  (creation_payload name query_sql is_private pjs) in
  (serialized params = Ok pjs ->
   transport create (server w) = (Ok r, s1) ->
   fst (create_query name query_sql params is_private w) <>
   Raise (KeyError key)) /\
  (transport (action_request i "/archive") (server w) = (Ok r, s1) ->
   fst (archive_query i w) <> Raise (KeyError key)) /\
  (transport (action_request i "/unarchive") (server w) = (Ok r, s1) ->
   fst (unarchive_query i w) <> Raise (KeyError key)) /\
  (transport (action_request i "/private") (server w) = (Ok r, s1) ->
   fst (make_private i w) <> Raise (KeyError key)) /\
  (transport (action_request i "/unprivate") (server w) = (Ok r, s1) ->
   fst (make_public i w) <> Raise (KeyError key)).
Proof.
  cbv zeta. split; [ | repeat split; intros Hpost].
  - intros Hser Hpost. rewrite (create_query_shape _ _ _ _ _ w Hser).
    apply (post_refetch_no_KeyError _ _ _ _ _ r s1). exact Hpost.
  - rewrite archive_query_shape.
    apply (post_refetch_no_KeyError _ None _ _ _ r s1). exact Hpost.
  - rewrite unarchive_query_shape.
    apply (post_refetch_no_KeyError _ None _ _ _ r s1). exact Hpost.
  - rewrite make_private_shape.
    apply (post_refetch_no_KeyError _ None _ _ _ r s1). exact Hpost.
  - rewrite make_public_shape.
    apply (post_refetch_no_KeyError _ None _ _ _ r s1). exact Hpost.
Qed.

End QueryAPI.

(** ** The client against the reference server *)

(** C4.  With a field supplied and a server that answers every request
    with an error payload -- an answer without ["query_id"] --
    [update_query] does not raise a [DuneError]: it raises the
    [AttributeError] of [params.query_parms], and the world is the one
    before the call. *)
Theorem update_query_error_payload_is_not_DuneError :
  let invalid_key := JDict [("error", JStr "invalid API Key")] in
  let rename := mk_UpdateQueryParams (Some "renamed") None None None None in
  getitem invalid_key "query_id" = Raise (KeyError "query_id") /\
  update_query Fixture.to_dict (Fixture.answer invalid_key)
               2713571 (Some rename) Fixture.world0 =
    (Raise (AttributeError "UpdateQueryParams" "query_parms"),
     Fixture.world0) /\
  is_DuneError (AttributeError "UpdateQueryParams" "query_parms") = false.
Proof.
  cbv zeta. split; [reflexivity | ].
  rewrite update_query_raises. split; reflexivity.
Qed.

(** C10.  With a field supplied and a server whose answers carry a
    ["query_id"] that [int] refuses with a [ValueError], [update_query]
    does not raise that [ValueError]: it raises the [AttributeError] of
    [params.query_parms], and the world is the one before the call. *)
Theorem update_query_bad_id_is_not_ValueError :
  let bad_id := JDict [("query_id", JStr "abc")] in
  let rename := mk_UpdateQueryParams (Some "renamed") None None None None in
  getitem bad_id "query_id" = Ok (JStr "abc") /\
  py_int (JStr "abc") = Raise ValueError /\
  update_query Fixture.to_dict (Fixture.answer bad_id)
               2713571 (Some rename) Fixture.world0 =
    (Raise (AttributeError "UpdateQueryParams" "query_parms"),
     Fixture.world0).
Proof.
  cbv zeta. split; [reflexivity | ]. split; [reflexivity | ].
  apply update_query_raises.
Qed.

(** The documented service archives the query 2713571 and the client
    reports it; on a fresh server [unarchive_query] reports [False]. *)
Lemma archive_query_returns_refetched_flag_witness :
  let service := Fixture.transport (fun i => i) 1 in
  let i := 2713571 in
  archive_query Fixture.from_dict Fixture.q_archived service i
                Fixture.world0 =
    (Ok true,
     mk_world (Fixture.set_archived i true Fixture.fresh)
              [action_request i "/archive"; get_request i] []) /\
  unarchive_query Fixture.from_dict Fixture.q_archived service i
                  Fixture.world0 =
    (Ok false,
     mk_world (Fixture.set_archived i false Fixture.fresh)
              [action_request i "/unarchive"; get_request i] []).
Proof.
  cbv zeta. split.
  - apply (proj2 (proj1 (archive_query_returns_refetched_flag
                           Fixture.from_dict Fixture.q_archived
                           (Fixture.transport (fun i => i) 1)
                           2713571 Fixture.world0))
                 (Fixture.id_json 2713571) 2713571
                 (Fixture.set_archived 2713571 true Fixture.fresh)
                 (Fixture.mk_query 2713571 false true)
                 (Fixture.set_archived 2713571 true Fixture.fresh)).
    + split; [reflexivity | exists (JInt 2713571); split; reflexivity].
    + exists (Fixture.query_json 2713571 (Fixture.mk_flags false true)).
      split; reflexivity.
  - apply (proj2 (proj2 (archive_query_returns_refetched_flag
                           Fixture.from_dict Fixture.q_archived
                           (Fixture.transport (fun i => i) 1)
                           2713571 Fixture.world0))
                 (Fixture.id_json 2713571) 2713571
                 (Fixture.set_archived 2713571 false Fixture.fresh)
                 (Fixture.mk_query 2713571 false false)
                 (Fixture.set_archived 2713571 false Fixture.fresh)).
    + split; [reflexivity | exists (JInt 2713571); split; reflexivity].
    + exists (Fixture.query_json 2713571 (Fixture.mk_flags false false)).
      split; reflexivity.
Defined.

(** Against the documented service [make_private] succeeds; against a
    service that names the query 8 in its answers, the query read back
    is 8, which is still public, and the assertion fails. *)
Lemma privacy_postcondition_is_asserted_witness :
  make_private Fixture.from_dict Fixture.q_private
               (Fixture.transport (fun i => i) 1) 7 Fixture.world0 =
    (Ok tt,
     mk_world (Fixture.set_private 7 true Fixture.fresh)
              [action_request 7 "/private"; get_request 7] []) /\
  make_private Fixture.from_dict Fixture.q_private
               (Fixture.transport (fun _ => 8) 1) 7 Fixture.world0 =
    (Raise AssertionError,
     mk_world (Fixture.set_private 7 true Fixture.fresh)
              [action_request 7 "/private"; get_request 8] []) /\
  make_public Fixture.from_dict Fixture.q_private
              (Fixture.transport (fun i => i) 1) 7 Fixture.world0 =
    (Ok tt,
     mk_world (Fixture.set_private 7 false Fixture.fresh)
              [action_request 7 "/unprivate"; get_request 7] []).
Proof.
  split; [ | split].
  - apply (proj1 (privacy_postcondition_is_asserted
                    Fixture.from_dict Fixture.q_private
                    (Fixture.transport (fun i => i) 1)
                    7 Fixture.world0 (Fixture.id_json 7) 7
                    (Fixture.set_private 7 true Fixture.fresh)
                    (Fixture.mk_query 7 true false)
                    (Fixture.set_private 7 true Fixture.fresh))).
    + split; [reflexivity | exists (JInt 7); split; reflexivity].
    + exists (Fixture.query_json 7 (Fixture.mk_flags true false)).
      split; reflexivity.
  - apply (proj1 (privacy_postcondition_is_asserted
                    Fixture.from_dict Fixture.q_private
                    (Fixture.transport (fun _ => 8) 1)
                    7 Fixture.world0 (Fixture.id_json 8) 8
                    (Fixture.set_private 7 true Fixture.fresh)
                    (Fixture.mk_query 8 false false)
                    (Fixture.set_private 7 true Fixture.fresh))).
    + split; [reflexivity | exists (JInt 8); split; reflexivity].
    + exists (Fixture.query_json 8 (Fixture.mk_flags false false)).
      split; reflexivity.
  - apply (proj1 (proj2 (privacy_postcondition_is_asserted
                    Fixture.from_dict Fixture.q_private
                    (Fixture.transport (fun i => i) 1)
                    7 Fixture.world0 (Fixture.id_json 7) 7
                    (Fixture.set_private 7 false Fixture.fresh)
                    (Fixture.mk_query 7 false false)
                    (Fixture.set_private 7 false Fixture.fresh)))).
    + split; [reflexivity | exists (JInt 7); split; reflexivity].
    + exists (Fixture.query_json 7 (Fixture.mk_flags false false)).
      split; reflexivity.
Defined.

(** Creating a query with one text parameter against the documented
    service, which numbers it 42. *)
Lemma create_query_posts_then_reads_witness :
  let text := JDict [("key", JStr "TextField"); ("type", JStr "text");
                     ("value", JStr "Plain Text")] in
  let payload := JDict [("name", JStr "test_create"); ("query_sql", JStr "");
                        ("is_private", JBool false);
                        ("parameters", JList [text])] in
  create_query Fixture.to_dict Fixture.from_dict
               (Fixture.transport (fun i => i) 42)
               "test_create" "" (Some [("TextField", "Plain Text")]) false
               Fixture.world0 =
    (Ok (Fixture.mk_query 42 false false),
     mk_world Fixture.fresh
              [mk_request POST "/query/" (Some payload);
               mk_request GET "/query/42" None] []).
Proof.
  cbv zeta.
  assert (Hser : serialized Fixture.to_dict
                   (Some [("TextField", "Plain Text")]) =
                 Ok (Some [JDict [("key", JStr "TextField");
                                  ("type", JStr "text");
                                  ("value", JStr "Plain Text")]]))
    by reflexivity.
  apply (proj2 (create_query_posts_then_reads
                  Fixture.to_dict Fixture.from_dict
                  (Fixture.transport (fun i => i) 42)
                  "test_create" "" (Some [("TextField", "Plain Text")]) false
                  Fixture.world0 _ Hser)
               (Fixture.id_json 42) 42 Fixture.fresh
               (Fixture.mk_query 42 false false) Fixture.fresh).
  - split; [reflexivity | exists (JInt 42); split; reflexivity].
  - exists (Fixture.query_json 42 (Fixture.mk_flags false false)).
    split; reflexivity.
Defined.

(** The reference server honours the archive routes for the query
    2713571 and its reads change nothing: archiving and then unarchiving
    the query sends POST, GET, POST, GET, reports [True], then [False],
    and leaves the query archived, then not archived. *)
Lemma archive_then_unarchive_witness :
  let service := Fixture.transport (fun i => i) 1 in
  let archive := mk_request POST "/query/2713571/archive" None in
  let unarchive := mk_request POST "/query/2713571/unarchive" None in
  let read := mk_request GET "/query/2713571" None in
  exists s2 s4,
    archive_query Fixture.from_dict Fixture.q_archived service 2713571
                  Fixture.world0 =
      (Ok true, mk_world s2 [archive; read] []) /\
    unarchive_query Fixture.from_dict Fixture.q_archived service 2713571
                    (mk_world s2 [archive; read] []) =
      (Ok false, mk_world s4 [archive; read; unarchive; read] []) /\
    Fixture.f_archived (s2 2713571) = true /\
    Fixture.f_archived (s4 2713571) = false.
Proof.
  cbv zeta.
  assert (Hhonours :
            honours_archive_routes
              Fixture.from_dict Fixture.q_archived
              (Fixture.transport (fun i => i) 1)
              (fun s i => Fixture.f_archived (s i)) 2713571).
  { split; [ | split]; intros s.
    - exists (Fixture.id_json 2713571),
             (Fixture.set_archived 2713571 true s).
      split; [ | reflexivity].
      split; [reflexivity | exists (JInt 2713571); split; reflexivity].
    - exists (Fixture.id_json 2713571),
             (Fixture.set_archived 2713571 false s).
      split; [ | reflexivity].
      split; [reflexivity | exists (JInt 2713571); split; reflexivity].
    - exists (Fixture.mk_query 2713571 (Fixture.f_private (s 2713571))
                               (Fixture.f_archived (s 2713571))), s.
      split; [ | reflexivity].
      exists (Fixture.query_json 2713571 (s 2713571)). split; reflexivity. }
  destruct (archive_then_unarchive
              Fixture.from_dict Fixture.q_archived
              (Fixture.transport (fun i => i) 1)
              (fun s i => Fixture.f_archived (s i)) 2713571
              Hhonours Fixture.world0)
    as [s2 [s4 [Harchive [Hunarchive Hflags]]]].
  exists s2, s4.
  split; [exact Harchive | split; [exact Hunarchive | ]].
  apply Hflags.
  intros s q s' [g [Hget _]].
  injection Hget as _ <-. reflexivity.
Defined.

(** A service that names the query 8 in its answers: archiving 7 reads
    8 back and reports the flag of 8, [False], although 7 is now
    archived. *)
Lemma refetch_uses_answered_id_witness :
  let service := Fixture.transport (fun _ => 8) 1 in
  trace (snd (archive_query Fixture.from_dict Fixture.q_archived service 7
                            Fixture.world0)) =
    [mk_request POST "/query/7/archive" None;
     mk_request GET "/query/8" None] /\
  archive_query Fixture.from_dict Fixture.q_archived service 7
                Fixture.world0 =
    (Ok false,
     mk_world (Fixture.set_archived 7 true Fixture.fresh)
              [mk_request POST "/query/7/archive" None;
               mk_request GET "/query/8" None] []) /\
  Fixture.f_archived (Fixture.set_archived 7 true Fixture.fresh 7) = true.
Proof.
  cbv zeta.
  pose proof (proj1 (refetch_uses_answered_id
                       Fixture.from_dict Fixture.q_archived Fixture.q_private
                       (Fixture.transport (fun _ => 8) 1)
                       7 Fixture.world0 (Fixture.id_json 8) 8
                       (Fixture.set_archived 7 true Fixture.fresh))) as Huse.
  destruct Huse as [Htrace Hflag].
  - split; [reflexivity | exists (JInt 8); split; reflexivity].
  - split; [exact Htrace | split; [ | reflexivity]].
    apply (Hflag (Fixture.mk_query 8 false false)
                 (Fixture.set_archived 7 true Fixture.fresh)).
    exists (Fixture.query_json 8 (Fixture.mk_flags false false)).
    split; reflexivity.
Defined.

(** A server that rejects the API key: archiving raises the [DuneError]
    built from its answer. *)
Lemma missing_query_id_raises_DuneError_witness :
  let invalid_key := JDict [("error", JStr "invalid API Key")] in
  archive_query Fixture.from_dict Fixture.q_archived
                (Fixture.answer invalid_key) 2713571 Fixture.world0 =
    (Raise (DuneError invalid_key "ArchiveQueryResponse"
                      (KeyError "query_id")),
     mk_world Fixture.fresh
              [mk_request POST "/query/2713571/archive" None] []) /\
  create_query Fixture.to_dict Fixture.from_dict
               (Fixture.answer invalid_key) "test_create" "" None false
               Fixture.world0 =
    (Raise (DuneError invalid_key "CreateQueryResponse"
                      (KeyError "query_id")),
     mk_world Fixture.fresh
              [mk_request POST "/query/"
                 (Some (JDict [("name", JStr "test_create");
                               ("query_sql", JStr "");
                               ("is_private", JBool false)]))] []).
Proof.
  cbv zeta.
  pose proof (missing_query_id_raises_DuneError
                Fixture.to_dict Fixture.from_dict
                Fixture.q_archived Fixture.q_private
                (Fixture.answer (JDict [("error", JStr "invalid API Key")]))
                2713571 "test_create" "" None false None Fixture.world0
                (JDict [("error", JStr "invalid API Key")]) Fixture.fresh)
    as [Hcreate [Harchive _]].
  split.
  - apply Harchive. split; reflexivity.
  - apply Hcreate; [reflexivity | split; reflexivity].
Defined.

(** A server whose answers carry the id ["abc"]: archiving raises the
    [ValueError] of [int("abc")]. *)
Lemma conversion_error_is_not_wrapped_witness :
  let bad_id := JDict [("query_id", JStr "abc")] in
  archive_query Fixture.from_dict Fixture.q_archived
                (Fixture.answer bad_id) 2713571 Fixture.world0 =
    (Raise ValueError,
     mk_world Fixture.fresh
              [mk_request POST "/query/2713571/archive" None] []).
Proof.
  cbv zeta.
  pose proof (conversion_error_is_not_wrapped
                Fixture.to_dict Fixture.from_dict
                Fixture.q_archived Fixture.q_private
                (Fixture.answer (JDict [("query_id", JStr "abc")]))
                2713571 "test_create" "" None false None Fixture.world0
                (JDict [("query_id", JStr "abc")]) ValueError Fixture.fresh)
    as [_ [Harchive _]].
  apply Harchive.
  split; [reflexivity | exists (JStr "abc"); split; reflexivity].
Defined.

(** A service that has forgotten the query: the [KeyError] of
    [from_dict] on its answer reaches the caller of [get_query]. *)
Lemma get_query_does_not_translate_witness :
  get_query Fixture.from_dict (Faulty.forgetful 12345) 12345
            Fixture.world0 =
    (Raise (KeyError "query_id"),
     mk_world Fixture.fresh [mk_request GET "/query/12345" None] []).
Proof.
  apply (get_query_does_not_translate
           Fixture.from_dict (Faulty.forgetful 12345) 12345 Fixture.world0
           (KeyError "query_id") Fixture.fresh).
  right. exists Fixture.not_found. split; reflexivity.
Defined.

(** The same service acknowledges the archive action with the id 7; the
    [KeyError] of the read comes back as a [DuneError] that shows the
    acknowledgement, which does have the key. *)
Lemma refetch_failure_is_handled_witness :
  archive_query Fixture.from_dict Fixture.q_archived (Faulty.forgetful 7) 7
                Fixture.world0 =
    (Raise (DuneError (JDict [("query_id", JInt 7)]) "ArchiveQueryResponse"
                      (KeyError "query_id")),
     mk_world Fixture.fresh
              [mk_request POST "/query/7/archive" None;
               mk_request GET "/query/7" None] []).
Proof.
  pose proof (refetch_failure_is_handled
                Fixture.to_dict Fixture.from_dict
                Fixture.q_archived Fixture.q_private (Faulty.forgetful 7)
                7 "test_create" "" None false None Fixture.world0
                (Fixture.id_json 7) 7 Fixture.fresh
                (KeyError "query_id") Fixture.fresh) as Hhandled.
  destruct Hhandled as [_ [Harchive _]].
  - right. exists Fixture.not_found. split; reflexivity.
  - apply Harchive.
    split; [reflexivity | exists (JInt 7); split; reflexivity].
Defined.

(** A transport that raises [KeyError] itself: the action hands it on,
    unwrapped. *)
Lemma first_request_failure_propagates_witness :
  archive_query Fixture.from_dict Fixture.q_archived
                (Faulty.failing (KeyError "query_id")) 7 Fixture.world0 =
    (Raise (KeyError "query_id"),
     mk_world Fixture.fresh [mk_request POST "/query/7/archive" None] []).
Proof.
  pose proof (first_request_failure_propagates
                Fixture.to_dict Fixture.from_dict
                Fixture.q_archived Fixture.q_private
                (Faulty.failing (KeyError "query_id"))
                7 "test_create" "" None false None Fixture.world0
                (KeyError "query_id") Fixture.fresh) as [_ [Harchive _]].
  apply Harchive. reflexivity.
Defined.

(** The second parameter has no name: nothing is posted. *)
Lemma create_query_serialization_failure_witness :
  create_query Faulty.to_dict Fixture.from_dict
               (Fixture.transport (fun i => i) 42)
               "test_create" "" (Some [("TextField", "Plain Text"); ("", "x")])
               false Fixture.world0 =
    (Raise TypeError, Fixture.world0) /\
  exists p, In p [("TextField", "Plain Text"); ("", "x")] /\
            Faulty.to_dict p = Raise TypeError.
Proof.
  apply (create_query_serialization_failure
           Faulty.to_dict Fixture.from_dict
           (Fixture.transport (fun i => i) 42)
           "test_create" "" [("TextField", "Plain Text"); ("", "x")]
           false Fixture.world0 TypeError).
  reflexivity.
Defined.

(** The reference server honours the privacy routes for the query
    2713571. *)
Lemma make_private_then_make_public_witness :
  exists w1 w2,
    make_private Fixture.from_dict Fixture.q_private
                 (Fixture.transport (fun i => i) 1) 2713571
                 Fixture.world0 = (Ok tt, w1) /\
    Fixture.f_private (server w1 2713571) = true /\
    make_public Fixture.from_dict Fixture.q_private
                (Fixture.transport (fun i => i) 1) 2713571 w1 =
      (Ok tt, w2) /\
    Fixture.f_private (server w2 2713571) = false.
Proof.
  apply (make_private_then_make_public
           Fixture.from_dict Fixture.q_private
           (Fixture.transport (fun i => i) 1)
           (fun s i => Fixture.f_private (s i)) 2713571).
  split; [ | split]; intros s.
  - exists (Fixture.id_json 2713571), (Fixture.set_private 2713571 true s).
    split; [ | reflexivity].
    split; [reflexivity | exists (JInt 2713571); split; reflexivity].
  - exists (Fixture.id_json 2713571), (Fixture.set_private 2713571 false s).
    split; [ | reflexivity].
    split; [reflexivity | exists (JInt 2713571); split; reflexivity].
  - exists (Fixture.mk_query 2713571 (Fixture.f_private (s 2713571))
                             (Fixture.f_archived (s 2713571))), s.
    split; [ | split; reflexivity].
    exists (Fixture.query_json 2713571 (s 2713571)). split; reflexivity.
Defined.

(** The queries 7 and 8. *)
Lemma routes_distinguish_queries_witness :
  get_request 7 <> get_request 8 /\
  forall action, action_request 7 action <> action_request 8 action.
Proof.
  apply (routes_distinguish_queries 7 8). discriminate.
Defined.

(** A service that answers with the id ["8"]: archiving 7 reads 8. *)
Lemma id_answered_as_decimal_string_witness :
  py_int (JStr "8") = Ok 8 /\
  archive_query Fixture.from_dict Fixture.q_archived Faulty.string_ids 7
                Fixture.world0 =
    (Ok false,
     mk_world Fixture.fresh
              [mk_request POST "/query/7/archive" None;
               mk_request GET "/query/8" None] []).
Proof.
  apply (id_answered_as_decimal_string
           Fixture.from_dict Fixture.q_archived Faulty.string_ids
           7 8 Fixture.world0 (JDict [("query_id", JStr "8")])
           Fixture.fresh (Fixture.mk_query 8 false false) Fixture.fresh).
  - reflexivity.
  - reflexivity.
  - exists (Fixture.query_json 8 (Fixture.mk_flags false false)).
    split; reflexivity.
Defined.

(** Two text parameters, posted in the order given. *)
Lemma create_query_payload_fields_witness :
  exists payload rest,
    trace (snd (create_query Fixture.to_dict Fixture.from_dict
                  (Fixture.transport (fun i => i) 42) "test_create" ""
                  (Some [("TextField", "Plain Text"); ("Other", "x")])
                  false Fixture.world0)) =
    creation_request payload :: rest /\
    getitem payload "name" = Ok (JStr "test_create") /\
    getitem payload "query_sql" = Ok (JStr "") /\
    getitem payload "is_private" = Ok (JBool false) /\
    exists js,
      getitem payload "parameters" = Ok (JList js) /\
      Forall2 (fun p j => Fixture.to_dict p = Ok j)
              [("TextField", "Plain Text"); ("Other", "x")] js.
Proof.
  apply (create_query_payload_fields
           Fixture.to_dict Fixture.from_dict
           (Fixture.transport (fun i => i) 42) "test_create" ""
           (Some [("TextField", "Plain Text"); ("Other", "x")])
           false Fixture.world0
           (Some [JDict [("key", JStr "TextField"); ("type", JStr "text");
                         ("value", JStr "Plain Text")];
                  JDict [("key", JStr "Other"); ("type", JStr "text");
                         ("value", JStr "x")]])).
  reflexivity.
Defined.

(** The forgetful service again: the failure of [make_public] is not a
    [KeyError]. *)
Lemma answered_call_never_raises_KeyError_witness :
  fst (make_public Fixture.from_dict Fixture.q_private (Faulty.forgetful 7)
                   7 Fixture.world0) <> Raise (KeyError "query_id").
Proof.
  pose proof (answered_call_never_raises_KeyError
                Fixture.to_dict Fixture.from_dict
                Fixture.q_archived Fixture.q_private (Faulty.forgetful 7)
                7 "test_create" "" None false None Fixture.world0
                (Fixture.id_json 7) Fixture.fresh "query_id")
    as [_ [_ [_ [_ Hpublic]]]].
  apply Hpublic. reflexivity.
Defined.

(** Creating a query against the reference server: two requests. *)
Lemma operations_send_at_most_two_requests_witness :
  trace (snd (create_query Fixture.to_dict Fixture.from_dict
                (Fixture.transport (fun i => i) 42) "test_create" "" None
                false Fixture.world0)) =
    [mk_request POST "/query/"
       (Some (JDict [("name", JStr "test_create"); ("query_sql", JStr "");
                     ("is_private", JBool false)]));
     mk_request GET "/query/42" None].
Proof.
  pose proof (operations_send_at_most_two_requests
                Fixture.to_dict Fixture.from_dict
                Fixture.q_archived Fixture.q_private
                (Fixture.transport (fun i => i) 42)
                7 "test_create" "" None false None Fixture.world0)
    as [_ [_ [_ [_ [_ Hcreate]]]]].
  destruct (Hcreate eq_refl) as [Hone | [qid Htwo]].
  - discriminate Hone.
  - reflexivity.
Defined.
